(** * The mailbox of go-akka's dispatch package, embedded in Rocq

    The development follows [dispatch/mailbox.go]: the packed status word
    with its compare-and-swap transitions, the user-queue entry points and
    the [Run] loop with its deferred clean-up.

    The embedding is sequential: one thread owns the mailbox, so the value a
    transition loads is the value its compare-and-swap compares against.  The
    retry branches of the source are kept (they consume fuel) and are shown
    to be dead in this setting. *)

From Stdlib Require Import ZArith NArith List Bool Lia Ascii.
From Stdlib Require String.
Import ListNotations.
Open Scope Z_scope.

(** ** 32-bit signed integers

    [status] is a Go [int32]; the only arithmetic that can leave the range
    is the addition in [suspend], which wraps around. *)
Module Int32.

Definition modulus : Z := 4294967296.
Definition half_modulus : Z := 2147483648.

Definition wrap (z : Z) : Z := (z + half_modulus) mod modulus - half_modulus.

Definition in_range (z : Z) : Prop := - half_modulus <= z < half_modulus.

End Int32.

(** ** The interfaces of package akka the mailbox is written against *)
Module akka.

(** How a call into a collaborator ends: it returns, or it panics and the
    panic unwinds the caller's stack (running its deferred functions). *)
Inductive Outcome : Type := Returned | Panicked.

(** Modelled from the spec: the interface [akka.MessageQueue], whose
    declaration is not part of the sources.  [Enqueue] yields the error the
    implementation reports ([None] for nil), [Dequeue] yields the pair
    (envelope, ok) as an option, [CleanUp] receives the owner and the
    dead-letter queue. *)
Class MessageQueue (ActorRef Envelope Error Q : Type) : Type := {
  Enqueue : ActorRef -> Envelope -> Q -> Q * option Error;
  Dequeue : Q -> option Envelope * Q;
  NumberOfMessages : Q -> Z;
  HasMessages : Q -> bool;
  CleanUp : ActorRef -> Q -> Q -> Q * Q
}.

(** Modelled from the spec: [akka.MessageInvoker], the cell the mailbox
    calls back into.  An invocation may touch the mailbox it runs on
    (suspend it, close it, enqueue to it) and may panic. *)
Class MessageInvoker (Envelope M : Type) : Type := {
  Invoke : Envelope -> M -> M * Outcome
}.

(** Modelled from the spec: [akka.MessageDispatcher], restricted to the two
    methods the mailbox calls. *)
Class MessageDispatcher (M : Type) : Type := {
  Throughput : Z;
  RegisterForExecution : M -> bool -> bool -> M
}.

End akka.

(** ** Package dispatch *)
Module dispatch.

Definition MailboxStatusOpen : Z := 0.
Definition MailboxStatusClosed : Z := 1.
Definition MailboxStatusScheduled : Z := 2.
Definition MailboxStatusShouldScheduleMask : Z := 3.
Definition MailboxStatusShouldNotProcessMask : Z := Z.lnot 2.
Definition MailboxStatusSuspendMask : Z := Z.lnot 3.
Definition MailboxStatusSuspendUnit : Z := 4.
Definition MailboxStatusSuspendAwaitTask : Z := Z.lnot 4.

(** The closed bit is set only in the word Closed itself. *)
Definition closed_bit_exact (s : Z) : Prop :=
  Z.testbit s 0 = false \/ s = MailboxStatusClosed.

(** A status word no run is scheduled on: Closed itself, or a suspend
    count alone, within the [int32] range. *)
Definition unscheduled_word (s : Z) : Prop :=
  s = MailboxStatusClosed \/ (s mod 4 = 0 /\ Int32.in_range s).

(** What [Run] does to its collaborators and to its own status word, in
    program order. *)
Inductive Event (Envelope : Type) : Type :=
| EvDequeue (next : option Envelope)
| EvInvoke (next : Envelope)
| EvSetAsIdle
| EvRegisterForExecution (status : Z) (hasMessageHint hasSystemMessageHint : bool).
Arguments EvDequeue {Envelope} next.
Arguments EvInvoke {Envelope} next.
Arguments EvSetAsIdle {Envelope}.
Arguments EvRegisterForExecution {Envelope} status hasMessageHint hasSystemMessageHint.

Section Mailbox.

Context {ActorRef Envelope SystemMessage Error Q : Type}.
Context {MQ : akka.MessageQueue ActorRef Envelope Error Q}.

(** The struct [Mailbox].  [actor] keeps what the mailbox asks of its
    cell, [Self()]; [systemMailbox] is the lock-free queue as the list of
    its pending messages; [messageQueue] is not nil.  The fields
    [invoker] and [dispatcher] are the instances below. *)
Record Mailbox : Type := mkMailbox {
  actor : ActorRef;
  messageQueue : Q;
  deadLetterMailbox : Q;
  systemMailbox : list SystemMessage;
  status : Z
}.

Context {MI : akka.MessageInvoker Envelope Mailbox}.
Context {MD : akka.MessageDispatcher Mailbox}.

Definition with_status (s : Z) (p : Mailbox) : Mailbox :=
  mkMailbox (actor p) (messageQueue p) (deadLetterMailbox p) (systemMailbox p) s.

Definition with_messageQueue (q : Q) (p : Mailbox) : Mailbox :=
  mkMailbox (actor p) q (deadLetterMailbox p) (systemMailbox p) (status p).

(** *** Atomic access to the status word *)

Definition currentStatus (p : Mailbox) : Z := status p.

Definition updateStatus (oldStatus newStatus : Z) (p : Mailbox) : Mailbox * bool :=
  if status p =? oldStatus then (with_status newStatus p, true) else (p, false).

Definition setStatus (newStatus : Z) (p : Mailbox) : Mailbox :=
  with_status newStatus p.

(** *** Predicates on the status word *)

Definition shouldProcessMessage (p : Mailbox) : bool :=
  Z.land (currentStatus p) MailboxStatusShouldNotProcessMask =? 0.

Definition isSuspended (p : Mailbox) : bool :=
  negb (Z.land (currentStatus p) MailboxStatusSuspendMask =? 0).

Definition isClosed (p : Mailbox) : bool :=
  currentStatus p =? MailboxStatusClosed.

Definition isScheduled (p : Mailbox) : bool :=
  negb (Z.land (currentStatus p) MailboxStatusScheduled =? 0).

(** *** Transitions

    Each transition retries when its compare-and-swap fails; [fuel]
    bounds the number of attempts and [None] means it ran out. *)

Fixpoint resume (fuel : nat) (p : Mailbox) : option (Mailbox * bool) :=
  match fuel with
  | O => None
  | S fuel' =>
      let status := currentStatus p in
      if status =? MailboxStatusClosed then
        Some (setStatus MailboxStatusClosed p, false)
      else
        let next :=
          if status >=? MailboxStatusSuspendUnit
          then status - MailboxStatusSuspendUnit
          else status in
        let '(p', swapped) := updateStatus status next p in
        if swapped then Some (p', next <? MailboxStatusSuspendUnit)
        else resume fuel' p'
  end.

Fixpoint suspend (fuel : nat) (p : Mailbox) : option (Mailbox * bool) :=
  match fuel with
  | O => None
  | S fuel' =>
      let status := currentStatus p in
      if status =? MailboxStatusClosed then
        Some (setStatus MailboxStatusClosed p, false)
      else
        let '(p', swapped) :=
          updateStatus status (Int32.wrap (status + MailboxStatusSuspendUnit)) p in
        if swapped then Some (p', status <? MailboxStatusSuspendUnit)
        else suspend fuel' p'
  end.

Fixpoint becomeClosed (fuel : nat) (p : Mailbox) : option (Mailbox * bool) :=
  match fuel with
  | O => None
  | S fuel' =>
      let status := currentStatus p in
      if status =? MailboxStatusClosed then
        Some (setStatus MailboxStatusClosed p, false)
      else
        let '(p', swapped) := updateStatus status MailboxStatusClosed p in
        if swapped then Some (p', true) else becomeClosed fuel' p'
  end.

Fixpoint setAsIdle (fuel : nat) (p : Mailbox) : option (Mailbox * bool) :=
  match fuel with
  | O => None
  | S fuel' =>
      let status := currentStatus p in
      let '(p', swapped) :=
        updateStatus status (Z.ldiff status MailboxStatusScheduled) p in
      if swapped then Some (p', true) else setAsIdle fuel' p'
  end.

Definition max (a b : Z) : Z := if a >? b then a else b.

(** *** The user queue *)

Definition Enqueue (receiver : ActorRef) (envelope : Envelope) (p : Mailbox)
  : Mailbox * option Error :=
  let '(q, err) := akka.Enqueue receiver envelope (messageQueue p) in
  (with_messageQueue q p, err).

Definition Dequeue (p : Mailbox) : option Envelope * Mailbox :=
  let '(envelope, q) := akka.Dequeue (messageQueue p) in
  (envelope, with_messageQueue q p).

Definition NumberOfMessages (p : Mailbox) : Z :=
  akka.NumberOfMessages (messageQueue p).

Definition HasMessages (p : Mailbox) : bool :=
  akka.HasMessages (messageQueue p).

(** [owner] and [deadLetters] are not used by the source either. *)
Definition CleanUp (owner : ActorRef) (deadLetters : Q) (p : Mailbox)
  : Mailbox * option Error :=
  let '(q, dl) := akka.CleanUp (actor p) (deadLetterMailbox p) (messageQueue p) in
  (mkMailbox (actor p) q dl (systemMailbox p) (status p), None).

(** *** The run loop *)

Definition processAllSystemMessages (p : Mailbox) : Mailbox := p.

Definition Result : Type := Mailbox * list (Event Envelope) * akka.Outcome.

Definition after (events : list (Event Envelope)) (r : Result) : Result :=
  let '(p, trace, outcome) := r in (p, events ++ trace, outcome).

(** One unit of [fuel] per iteration of the [for] loop. *)
Fixpoint processMailbox (fuel : nat) (left : Z) (p : Mailbox) : option Result :=
  match fuel with
  | O => None
  | S fuel' =>
      if shouldProcessMessage p then
        let '(next, p1) := Dequeue p in
        match next with
        | None => Some (p1, [EvDequeue None], akka.Returned)
        | Some envelope =>
            let '(p2, outcome) := akka.Invoke envelope p1 in
            match outcome with
            | akka.Panicked =>
                Some (p2, [EvDequeue next; EvInvoke envelope], akka.Panicked)
            | akka.Returned =>
                let p3 := processAllSystemMessages p2 in
                if left >? 1 then
                  option_map (after [EvDequeue next; EvInvoke envelope])
                             (processMailbox fuel' (left - 1) p3)
                else
                  Some (p3, [EvDequeue next; EvInvoke envelope], akka.Returned)
            end
        end
      else Some (p, [], akka.Returned)
  end.

(** The body of [Run] followed by its deferred function, which runs
    whether the body returned or panicked; a panic is not recovered. *)
Definition Run (fuel : nat) (p : Mailbox) : option Result :=
  let body :=
    if negb (isClosed p) then
      processMailbox fuel (max 1 akka.Throughput) (processAllSystemMessages p)
    else Some (p, [], akka.Returned) in
  match body with
  | None => None
  | Some (p1, trace, outcome) =>
      match setAsIdle fuel p1 with
      | None => None
      | Some (p2, _) =>
          Some (akka.RegisterForExecution p2 false false,
                trace ++ [EvSetAsIdle; EvRegisterForExecution (status p2) false false],
                outcome)
      end
  end.

(** Fuel that lets [Run] finish for throughput [t]. *)
Definition run_fuel (t : Z) : nat := Z.to_nat (max 1 t).

(** *** Sequences of transitions *)

Inductive Transition : Type := TSuspend | TResume | TBecomeClosed | TSetAsIdle.

Definition transition (fuel : nat) (t : Transition) (p : Mailbox)
  : option (Mailbox * bool) :=
  match t with
  | TSuspend => suspend fuel p
  | TResume => resume fuel p
  | TBecomeClosed => becomeClosed fuel p
  | TSetAsIdle => setAsIdle fuel p
  end.

Fixpoint transitions (fuel : nat) (ts : list Transition) (p : Mailbox)
  : option Mailbox :=
  match ts with
  | [] => Some p
  | t :: ts' =>
      match transition fuel t p with
      | Some (p', _) => transitions fuel ts' p'
      | None => None
      end
  end.

(** [times k op p]: [op] called [k] times in a row, results dropped. *)
Definition times (k : N) (op : Mailbox -> option (Mailbox * bool)) (p : Mailbox)
  : option Mailbox :=
  N.iter k
    (fun r => match r with
              | Some p' => option_map fst (op p')
              | None => None
              end)
    (Some p).

(** [k] calls of [suspend] followed by [j] calls of [resume]. *)
Definition nest (fuel : nat) (k j : N) (p : Mailbox) : option Mailbox :=
  match times k (suspend fuel) p with
  | Some p' => times j (resume fuel) p'
  | None => None
  end.

(** Suspend nesting at depth [k]: after [k] suspends and [k - 1] resumes
    the mailbox is suspended, the [k]-th resume ends the suspension, and any
    number of further resumes leave the mailbox as it is. *)
Definition suspend_nesting (fuel : nat) (k : N) (p : Mailbox) : Prop :=
  exists p1 p2 r,
    nest fuel k (N.pred k) p = Some p1 /\ isSuspended p1 = true /\
    resume fuel p1 = Some (p2, r) /\ isSuspended p2 = false /\
    forall j : N, times j (resume fuel) p2 = Some p2.

(** What the spec asks of [Enqueue] on a closed mailbox: no error, the
    envelope handed to the dead-letter queue, the user queue left alone. *)
Definition enqueue_redirects (receiver : ActorRef) (envelope : Envelope) (p : Mailbox)
  : Prop :=
  Enqueue receiver envelope p
  = (mkMailbox (actor p) (messageQueue p)
       (fst (akka.Enqueue receiver envelope (deadLetterMailbox p)))
       (systemMailbox p) (status p),
     None).

(** Counting what a run did. *)
Definition is_invoke (e : Event Envelope) : bool :=
  match e with EvInvoke _ => true | _ => false end.

Definition is_dequeued (e : Event Envelope) : bool :=
  match e with EvDequeue (Some _) => true | _ => false end.

Definition is_setAsIdle (e : Event Envelope) : bool :=
  match e with EvSetAsIdle => true | _ => false end.

Definition is_register (e : Event Envelope) : bool :=
  match e with EvRegisterForExecution _ _ _ => true | _ => false end.

Definition count (f : Event Envelope -> bool) (trace : list (Event Envelope)) : Z :=
  Z.of_nat (length (filter f trace)).

(** What the spec asks of [Run] on a closed mailbox: both queues left
    without messages and no registration request. *)
Definition run_cleans_up (fuel : nat) (p : Mailbox) : Prop :=
  exists p' trace outcome,
    Run fuel p = Some (p', trace, outcome) /\
    HasMessages p' = false /\ systemMailbox p' = [] /\
    count is_register trace = 0.

(** [at_head left p trace left' q]: entered with budget [left] on [p], the
    loop of [processMailbox] is back at its head with budget [left'] on
    [q], after the iterations [trace] records; each of them passed the
    test, dequeued an envelope and invoked the cell, which returned, and
    had budget left to go on. *)
Inductive at_head : Z -> Mailbox -> list (Event Envelope) -> Z -> Mailbox -> Prop :=
| at_head_entry (left : Z) (p : Mailbox) : at_head left p [] left p
| at_head_next (left : Z) (p : Mailbox) (envelope : Envelope) (p1 p2 : Mailbox)
    (trace : list (Event Envelope)) (left' : Z) (q : Mailbox) :
    shouldProcessMessage p = true ->
    Dequeue p = (Some envelope, p1) ->
    akka.Invoke envelope p1 = (p2, akka.Returned) ->
    left > 1 ->
    at_head (left - 1) (processAllSystemMessages p2) trace left' q ->
    at_head left p (EvDequeue (Some envelope) :: EvInvoke envelope :: trace) left' q.

(** The envelopes a trace dequeued, and the envelopes it invoked the cell
    on, in program order. *)
Fixpoint dequeued (trace : list (Event Envelope)) : list Envelope :=
  match trace with
  | [] => []
  | EvDequeue (Some envelope) :: trace' => envelope :: dequeued trace'
  | _ :: trace' => dequeued trace'
  end.

Fixpoint invoked (trace : list (Event Envelope)) : list Envelope :=
  match trace with
  | [] => []
  | EvInvoke envelope :: trace' => envelope :: invoked trace'
  | _ :: trace' => invoked trace'
  end.

End Mailbox.

End dispatch.

(** ** Strings, as the byte sequences Go strings are *)
Module strings.

(** [strings.LastIndex(s, sep)] for a one-byte [sep]: the index of the last
    [sep] in [s], or -1; [i] is the index of the head of [s]. *)
Fixpoint LastIndex_from (i : Z) (s : list ascii) (sep : ascii) : Z :=
  match s with
  | [] => -1
  | c :: s' =>
      let later := LastIndex_from (i + 1) s' sep in
      if later >=? 0 then later
      else if Ascii.eqb c sep then i else -1
  end.

Definition LastIndex (s : list ascii) (sep : ascii) : Z := LastIndex_from 0 s sep.

(** [s[i:]] for an index within bounds. *)
Definition slice_from (s : list ascii) (i : Z) : list ascii := skipn (Z.to_nat i) s.

Definition no_byte (sep : ascii) (s : list ascii) : bool :=
  forallb (fun c => negb (Ascii.eqb c sep)) s.

End strings.

(** ** Regular expressions

    Go's [regexp], as far as the pattern of [NewActorSystem] needs it:
    classes of bytes given by ranges, concatenation and star.  The pattern
    is anchored at both ends, so [MatchString] asks whether the whole input
    matches; it is decided by derivatives. *)
Module regexp.

Inductive Regexp : Type :=
| NoMatch
| EmptyMatch
| CharClass (ranges : list (ascii * ascii))
| Concat (r1 r2 : Regexp)
| Alternate (r1 r2 : Regexp)
| Star (r : Regexp).

Definition in_range (c : ascii) (range : ascii * ascii) : bool :=
  (N_of_ascii (fst range) <=? N_of_ascii c)%N
  && (N_of_ascii c <=? N_of_ascii (snd range))%N.

Definition in_class (ranges : list (ascii * ascii)) (c : ascii) : bool :=
  existsb (in_range c) ranges.

Fixpoint nullable (r : Regexp) : bool :=
  match r with
  | NoMatch => false
  | EmptyMatch => true
  | CharClass _ => false
  | Concat r1 r2 => nullable r1 && nullable r2
  | Alternate r1 r2 => nullable r1 || nullable r2
  | Star _ => true
  end.

Fixpoint derive (c : ascii) (r : Regexp) : Regexp :=
  match r with
  | NoMatch => NoMatch
  | EmptyMatch => NoMatch
  | CharClass ranges => if in_class ranges c then EmptyMatch else NoMatch
  | Concat r1 r2 =>
      if nullable r1
      then Alternate (Concat (derive c r1) r2) (derive c r2)
      else Concat (derive c r1) r2
  | Alternate r1 r2 => Alternate (derive c r1) (derive c r2)
  | Star r' => Concat (derive c r') (Star r')
  end.

Fixpoint MatchString (r : Regexp) (s : list ascii) : bool :=
  match s with
  | [] => nullable r
  | c :: s' => MatchString (derive c r) s'
  end.

End regexp.

(** ** Package actor *)
Module actor.

(** The pattern [^[a-zA-Z0-9][a-zA-Z0-9-_]*$]. *)
Definition namePattern : regexp.Regexp :=
  regexp.Concat
    (regexp.CharClass
       [("a", "z"); ("A", "Z"); ("0", "9")]%char)
    (regexp.Star
       (regexp.CharClass
          [("a", "z"); ("A", "Z"); ("0", "9"); ("-", "-"); ("_", "_")]%char)).

(** The head of [NewActorSystem]: the name is checked before anything is
    built; [boot] stands for the rest of the function, which builds,
    configures and starts the system. *)
Definition NewActorSystem {System Config Error : Type}
    (ErrInvalidActorSystemName : Error)
    (boot : list ascii -> list Config -> option System * option Error)
    (name : list ascii) (config : list Config) : option System * option Error :=
  if negb (regexp.MatchString namePattern name)
  then (None, Some ErrInvalidActorSystemName)
  else boot name config.

(** Letters and digits, and the bytes allowed after the first. *)
Definition is_alnum (c : ascii) : bool :=
  let n := N_of_ascii c in
  ((97 <=? n) && (n <=? 122) || (65 <=? n) && (n <=? 90)
   || (48 <=? n) && (n <=? 57))%N.

Definition is_name_byte (c : ascii) : bool :=
  is_alnum c || (N_of_ascii c =? 45)%N || (N_of_ascii c =? 95)%N.

Definition name_ok (name : list ascii) : bool :=
  match name with
  | [] => false
  | c :: rest => is_alnum c && forallb is_name_byte rest
  end.

(** [getTypeName], on the string [t.String()] gives. *)
Definition getTypeName (s : list ascii) : list ascii :=
  if (Z.of_nat (List.length s) =? 0) then []
  else strings.slice_from s (strings.LastIndex s "."%char + 1).

End actor.

(** ** A concrete instantiation

    Modelled from the spec: an unbounded first-in first-out user queue that
    never rejects, a cell whose invocations leave the mailbox alone, and a
    dispatcher with throughput 1 whose registration leaves the mailbox
    alone.  Envelopes, actor references and system messages are numbers. *)
Module fifo.

#[global] Instance Queue : akka.MessageQueue nat nat unit (list nat) := {|
  akka.Enqueue := fun _ envelope q => (q ++ [envelope], None);
  akka.Dequeue := fun q =>
    match q with
    | [] => (None, [])
    | envelope :: q' => (Some envelope, q')
    end;
  akka.NumberOfMessages := fun q => Z.of_nat (length q);
  akka.HasMessages := fun q => match q with [] => false | _ => true end;
  akka.CleanUp := fun _ deadLetters q => ([], deadLetters ++ q)
|}.

Abbreviation Mailbox := (@dispatch.Mailbox nat nat (list nat)).

#[global] Instance Cell : akka.MessageInvoker nat Mailbox := {|
  akka.Invoke := fun _ p => (p, akka.Returned)
|}.

#[global] Instance Dispatcher : akka.MessageDispatcher Mailbox := {|
  akka.Throughput := 1;
  akka.RegisterForExecution := fun p _ _ => p
|}.

(** A cell whose every invocation panics. *)
Definition FailingCell : akka.MessageInvoker nat Mailbox := {|
  akka.Invoke := fun _ p => (p, akka.Panicked)
|}.

(** A cell that closes its mailbox on every invocation, as a cell does
    when it handles a stop. *)
Definition ClosingCell : akka.MessageInvoker nat Mailbox := {|
  akka.Invoke := fun _ p => (dispatch.with_status dispatch.MailboxStatusClosed p,
                             akka.Returned)
|}.

(** A cell that panics on envelope [bad] and otherwise leaves the mailbox
    alone. *)
Definition PanicOn (bad : nat) : akka.MessageInvoker nat Mailbox := {|
  akka.Invoke := fun envelope p =>
    (p, if Nat.eqb envelope bad then akka.Panicked else akka.Returned)
|}.

(** The dispatcher above with throughput [t]. *)
Definition DispatcherOf (t : Z) : akka.MessageDispatcher Mailbox := {|
  akka.Throughput := t;
  akka.RegisterForExecution := fun p _ _ => p
|}.

(** A mailbox of actor 7 holding [user] and [system], with status [s]. *)
Definition mailbox (user : list nat) (system : list nat) (s : Z) : Mailbox :=
  dispatch.mkMailbox 7%nat user [] system s.

End fifo.

Import dispatch.

(** * Facts *)

(** ** Wrap-around *)

Lemma wrap_in_range z : Int32.in_range (Int32.wrap z).
Proof.
  unfold Int32.in_range, Int32.wrap, Int32.modulus, Int32.half_modulus.
  pose proof (Z.mod_pos_bound (z + 2147483648) 4294967296 eq_refl). lia.
Qed.

Lemma wrap_small z : Int32.in_range z -> Int32.wrap z = z.
Proof.
  unfold Int32.in_range, Int32.wrap, Int32.modulus, Int32.half_modulus. intros Hz.
  rewrite Z.mod_small; lia.
Qed.

Lemma wrap_add_l a b : Int32.wrap (Int32.wrap a + b) = Int32.wrap (a + b).
Proof.
  unfold Int32.wrap.
  replace ((a + Int32.half_modulus) mod Int32.modulus - Int32.half_modulus
           + b + Int32.half_modulus)
    with ((a + Int32.half_modulus) mod Int32.modulus + b) by ring.
  replace (a + b + Int32.half_modulus) with ((a + Int32.half_modulus) + b) by ring.
  now rewrite Zplus_mod_idemp_l.
Qed.

Lemma wrap_even z : Z.even (Int32.wrap z) = Z.even z.
Proof.
  unfold Int32.wrap, Int32.modulus, Int32.half_modulus.
  rewrite Z.mod_eq by discriminate.
  replace (z + 2147483648 - 4294967296 * ((z + 2147483648) / 4294967296) - 2147483648)
    with (z + 2 * (- 2147483648 * ((z + 2147483648) / 4294967296))) by ring.
  now rewrite Z.even_add_mul_2.
Qed.

(** ** The status word *)

Section StatusWord.

Context {ActorRef SystemMessage Q : Type}.

Abbreviation Mailbox := (@dispatch.Mailbox ActorRef SystemMessage Q).

Implicit Types (p : Mailbox) (s : Z) (fuel : nat).

Lemma with_status_same p : with_status (status p) p = p.
Proof. now destruct p. Qed.

Lemma with_status_twice s s' p : with_status s (with_status s' p) = with_status s p.
Proof. reflexivity. Qed.

Lemma status_with_status s p : status (with_status s p) = s.
Proof. reflexivity. Qed.

(** In the sequential setting the first compare-and-swap succeeds. *)
Lemma updateStatus_current s p :
  updateStatus (currentStatus p) s p = (with_status s p, true).
Proof. unfold updateStatus, currentStatus. now rewrite Z.eqb_refl. Qed.

Lemma suspend_S fuel p :
  suspend (S fuel) p =
  Some (if status p =? MailboxStatusClosed
        then (with_status MailboxStatusClosed p, false)
        else (with_status (Int32.wrap (status p + MailboxStatusSuspendUnit)) p,
              status p <? MailboxStatusSuspendUnit)).
Proof.
  cbn [suspend]. rewrite updateStatus_current. unfold currentStatus, setStatus.
  now destruct (status p =? MailboxStatusClosed).
Qed.

Lemma resume_S fuel p :
  resume (S fuel) p =
  Some (if status p =? MailboxStatusClosed
        then (with_status MailboxStatusClosed p, false)
        else if status p >=? MailboxStatusSuspendUnit
             then (with_status (status p - MailboxStatusSuspendUnit) p,
                   status p - MailboxStatusSuspendUnit <? MailboxStatusSuspendUnit)
             else (p, status p <? MailboxStatusSuspendUnit)).
Proof.
  cbn [resume]. rewrite updateStatus_current. unfold currentStatus, setStatus.
  destruct (status p =? MailboxStatusClosed); [reflexivity|].
  destruct (status p >=? MailboxStatusSuspendUnit); [reflexivity|].
  now rewrite with_status_same.
Qed.

Lemma becomeClosed_S fuel p :
  becomeClosed (S fuel) p =
  Some (with_status MailboxStatusClosed p, negb (isClosed p)).
Proof.
  cbn [becomeClosed]. rewrite updateStatus_current.
  unfold isClosed, currentStatus, setStatus.
  now destruct (status p =? MailboxStatusClosed).
Qed.

Lemma setAsIdle_S fuel p :
  setAsIdle (S fuel) p =
  Some (with_status (Z.ldiff (status p) MailboxStatusScheduled) p, true).
Proof. cbn [setAsIdle]. now rewrite updateStatus_current. Qed.

Lemma closed_eq p : isClosed p = true -> with_status MailboxStatusClosed p = p.
Proof.
  unfold isClosed, currentStatus. intros H. apply Z.eqb_eq in H.
  rewrite <- H. apply with_status_same.
Qed.

(** C7: [becomeClosed] leaves the status at exactly Closed, with neither the
    Scheduled bit nor a suspend count; it reports [true] precisely when the
    mailbox was not closed before; the other fields are untouched; a second
    call changes nothing and reports [false]. *)
Theorem C7_becomeClosed_forces_closed fuel p :
  exists p',
    becomeClosed (S fuel) p = Some (p', negb (isClosed p)) /\
    p' = with_status MailboxStatusClosed p /\
    (if isClosed p then p' = p else True) /\
    status p' = MailboxStatusClosed /\
    isClosed p' = true /\ isScheduled p' = false /\ isSuspended p' = false /\
    becomeClosed (S fuel) p' = Some (p', false).
Proof.
  exists (with_status MailboxStatusClosed p).
  rewrite !becomeClosed_S. repeat split.
  destruct (isClosed p) eqn:E; [now apply closed_eq | exact I].
Qed.

(** C8: on a closed mailbox each of [suspend], [resume], [setAsIdle] and
    [becomeClosed] leaves the mailbox as it is, hence closed; [suspend],
    [resume] and [becomeClosed] report [false]. *)
Theorem C8_closed_is_terminal fuel p :
  isClosed p = true ->
  suspend (S fuel) p = Some (p, false) /\
  resume (S fuel) p = Some (p, false) /\
  setAsIdle (S fuel) p = Some (p, true) /\
  becomeClosed (S fuel) p = Some (p, false).
Proof.
  intros H. rewrite suspend_S, resume_S, setAsIdle_S, becomeClosed_S, H.
  unfold isClosed, currentStatus in H. rewrite H. apply Z.eqb_eq in H.
  destruct p as [a q d sys s]. cbn in H. subst s. repeat split.
Qed.

(** C9: [setAsIdle] succeeds at the first attempt; afterwards the Scheduled
    bit is 0, the closed bit and the bits of the suspend counter are what
    they were, and no other field of the mailbox has changed. *)
Theorem C9_setAsIdle_clears_scheduled_only fuel p :
  exists p',
    setAsIdle (S fuel) p = Some (p', true) /\
    p' = with_status (status p') p /\
    Z.testbit (status p') 1 = false /\
    isScheduled p' = false /\
    Z.testbit (status p') 0 = Z.testbit (status p) 0 /\
    Z.land (status p') MailboxStatusSuspendMask
    = Z.land (status p) MailboxStatusSuspendMask.
Proof.
  eexists. split; [apply setAsIdle_S|].
  rewrite status_with_status. split; [reflexivity|].
  assert (B1 : Z.testbit (Z.ldiff (status p) MailboxStatusScheduled) 1 = false).
  { rewrite Z.ldiff_spec. cbn. apply andb_false_r. }
  split; [exact B1|]. split.
  - unfold isScheduled, currentStatus. rewrite status_with_status.
    rewrite Z.ldiff_land, <- Z.land_assoc. cbn. now rewrite Z.land_0_r.
  - split.
    + rewrite Z.ldiff_spec. cbn. apply andb_true_r.
    + rewrite Z.ldiff_land, <- Z.land_assoc. reflexivity.
Qed.

(** *** Reachable status words *)

Lemma bit0_wrap z : Z.testbit (Int32.wrap z) 0 = Z.testbit z 0.
Proof. now rewrite !Z.bit0_odd, <- !Z.negb_even, wrap_even. Qed.

Lemma bit0_add4 z : Z.testbit (z + 4) 0 = Z.testbit z 0.
Proof.
  rewrite !Z.bit0_odd, <- !Z.negb_even. f_equal.
  change 4 with (2 * 2). now rewrite Z.even_add_mul_2.
Qed.

Lemma bit0_sub4 z : Z.testbit (z - 4) 0 = Z.testbit z 0.
Proof. rewrite <- (bit0_add4 (z - 4)). f_equal. ring. Qed.

Lemma transition_S fuel t p :
  exists p' r, transition (S fuel) t p = Some (p', r) /\
               p' = with_status (status p') p /\
               (closed_bit_exact (status p) -> closed_bit_exact (status p')).
Proof.
  unfold closed_bit_exact, MailboxStatusClosed.
  destruct t; cbn [transition].
  - rewrite suspend_S. unfold MailboxStatusClosed, MailboxStatusSuspendUnit.
    destruct (Z.eqb_spec (status p) 1) as [E|E]; do 2 eexists;
      (split; [reflexivity|]); (split; [reflexivity|]);
      rewrite status_with_status; [now right|].
    intros [H|H]; [left|contradiction].
    now rewrite bit0_wrap, bit0_add4.
  - rewrite resume_S. unfold MailboxStatusClosed, MailboxStatusSuspendUnit.
    destruct (Z.eqb_spec (status p) 1) as [E|E];
      [|destruct (status p >=? 4)]; do 2 eexists;
      (split; [reflexivity|]);
      (split; [try reflexivity; symmetry; apply with_status_same|]);
      rewrite ?status_with_status; [now right| |tauto].
    intros [H|H]; [left|contradiction]. now rewrite bit0_sub4.
  - rewrite becomeClosed_S. do 2 eexists. repeat split. now right.
  - rewrite setAsIdle_S. do 2 eexists. repeat split.
    rewrite status_with_status.
    intros [H|H]; [left|right].
    + rewrite Z.ldiff_spec, H. reflexivity.
    + rewrite H. reflexivity.
Qed.

Lemma transitions_S fuel ts : forall p,
  closed_bit_exact (status p) ->
  exists p', transitions (S fuel) ts p = Some p' /\
             p' = with_status (status p') p /\
             closed_bit_exact (status p').
Proof.
  induction ts as [|t ts IH]; intros p Hp.
  - exists p. repeat split; [symmetry; apply with_status_same | exact Hp].
  - destruct (transition_S fuel t p) as (p1 & r & E1 & F1 & H1).
    destruct (IH p1 (H1 Hp)) as (p2 & E2 & F2 & H2).
    exists p2. cbn [transitions]. rewrite E1. repeat split; try assumption.
    rewrite F2, F1. reflexivity.
Qed.

Lemma closed_bit_exact_isClosed p :
  closed_bit_exact (status p) -> isClosed p = Z.testbit (status p) 0.
Proof.
  unfold closed_bit_exact, isClosed, currentStatus, MailboxStatusClosed.
  intros [H|H]; rewrite H; [|reflexivity].
  destruct (Z.eqb_spec (status p) 1) as [E|E]; [|reflexivity].
  rewrite E in H. discriminate.
Qed.

(** C10: every sequence of [suspend], [resume], [becomeClosed] and
    [setAsIdle] calls on a mailbox whose status is Open (0) runs to the end
    and leaves a status word that has the closed bit clear or is exactly
    Closed; there [isClosed] is the closed bit; and the mailbox that
    [becomeClosed] leaves is neither scheduled nor suspended. *)
Theorem C10_closed_bit_means_closed fuel (ts : list Transition) p :
  exists p' p'',
    transitions (S fuel) ts (with_status MailboxStatusOpen p) = Some p' /\
    (Z.testbit (status p') 0 = false \/ status p' = MailboxStatusClosed) /\
    isClosed p' = Z.testbit (status p') 0 /\
    becomeClosed (S fuel) p' = Some (p'', negb (isClosed p')) /\
    isClosed p'' = true /\ isScheduled p'' = false /\ isSuspended p'' = false.
Proof.
  destruct (transitions_S fuel ts (with_status MailboxStatusOpen p))
    as (p' & E & _ & H); [left; reflexivity|].
  exists p', (with_status MailboxStatusClosed p').
  rewrite becomeClosed_S. repeat split; try assumption.
  now apply closed_bit_exact_isClosed.
Qed.

(** *** Nested suspension *)

Lemma times_0 (op : Mailbox -> option (Mailbox * bool)) p : times 0 op p = Some p.
Proof. reflexivity. Qed.

Lemma times_succ k (op : Mailbox -> option (Mailbox * bool)) p :
  times (N.succ k) op p =
  match times k op p with
  | Some p' => option_map fst (op p')
  | None => None
  end.
Proof. unfold times. now rewrite N.iter_succ. Qed.

(** [k] suspends add [4 * k] to an even status word, modulo 2^32. *)
Lemma times_suspend fuel k p :
  Z.even (status p) = true -> Int32.in_range (status p) ->
  times k (suspend (S fuel)) p
  = Some (with_status (Int32.wrap (status p + 4 * Z.of_N k)) p).
Proof.
  intros Hev Hr. induction k as [|k IH] using N.peano_ind.
  - rewrite times_0, Z.add_0_r, wrap_small by assumption.
    now rewrite with_status_same.
  - rewrite times_succ, IH, suspend_S, status_with_status.
    unfold MailboxStatusClosed, MailboxStatusSuspendUnit.
    destruct (Z.eqb_spec (Int32.wrap (status p + 4 * Z.of_N k)) 1) as [E|E].
    + exfalso. apply (f_equal Z.even) in E. rewrite wrap_even in E.
      replace (status p + 4 * Z.of_N k) with (status p + 2 * (2 * Z.of_N k)) in E by ring.
      rewrite Z.even_add_mul_2, Hev in E. discriminate.
    + cbn [option_map fst]. rewrite with_status_twice, wrap_add_l.
      do 3 f_equal. lia.
Qed.

(** Below one suspend unit [resume] changes nothing. *)
Lemma times_resume_floor fuel j p :
  status p < MailboxStatusSuspendUnit ->
  times j (resume (S fuel)) p = Some p.
Proof.
  intros Hlt. induction j as [|j IH] using N.peano_ind.
  - apply times_0.
  - rewrite times_succ, IH, resume_S.
    unfold MailboxStatusClosed, MailboxStatusSuspendUnit in *.
    destruct (Z.eqb_spec (status p) 1) as [E|E].
    + cbn [option_map fst]. rewrite <- E. now rewrite with_status_same.
    + destruct (Z.geb_spec (status p) 4); [lia|reflexivity].
Qed.

(** [j] resumes take [4 * j] off an even status word that is at least that
    large. *)
Lemma times_resume fuel j p :
  Z.even (status p) = true -> 4 * Z.of_N j <= status p ->
  times j (resume (S fuel)) p = Some (with_status (status p - 4 * Z.of_N j) p).
Proof.
  intros Hev. induction j as [|j IH] using N.peano_ind; intros Hle.
  - rewrite times_0, Z.sub_0_r. now rewrite with_status_same.
  - rewrite times_succ, IH, resume_S, status_with_status by lia.
    unfold MailboxStatusClosed, MailboxStatusSuspendUnit.
    destruct (Z.eqb_spec (status p - 4 * Z.of_N j) 1) as [E|E].
    + exfalso. apply (f_equal Z.even) in E.
      replace (status p - 4 * Z.of_N j) with (status p + 2 * (- 2 * Z.of_N j)) in E by ring.
      rewrite Z.even_add_mul_2, Hev in E. discriminate.
    + destruct (Z.geb_spec (status p - 4 * Z.of_N j) 4); [|lia].
      cbn [option_map fst]. rewrite with_status_twice. do 2 f_equal. lia.
Qed.

Lemma testbit_two n : Z.testbit 2 n = (n =? 1).
Proof. destruct n as [|[n|n|]|n]; reflexivity. Qed.

(** Open and not suspended: the word is 0, or 2 when a run is scheduled. *)
Lemma shouldProcessMessage_status p :
  shouldProcessMessage p = true -> status p = 0 \/ status p = 2.
Proof.
  unfold shouldProcessMessage, currentStatus, MailboxStatusShouldNotProcessMask.
  intros H. apply Z.eqb_eq in H. rewrite <- Z.ldiff_land in H.
  rewrite <- (Z.lor_ldiff_and (status p) 2), H, Z.lor_0_l.
  destruct (Z.testbit (status p) 1) eqn:B; [right|left];
    apply Z.bits_inj'; intros n _;
    rewrite Z.land_spec, ?Z.bits_0, testbit_two;
    destruct (Z.eqb_spec n 1) as [->|_];
    rewrite ?B, ?andb_false_r; reflexivity.
Qed.

(** C6, within the counter's range: for every depth [k] with
    [1 <= k < 2^29], on a mailbox that is open and not suspended, [k]
    suspends followed by [k - 1] resumes leave it suspended, the [k]-th
    resume ends the suspension and reports it, and further resumes leave the
    mailbox as it is. *)
Theorem C6_suspend_nesting_below_overflow fuel (k : N) p :
  (1 <= k < 536870912)%N ->
  shouldProcessMessage p = true ->
  suspend_nesting (S fuel) k p.
Proof.
  intros Hk Hopen. apply shouldProcessMessage_status in Hopen.
  assert (Hev : Z.even (status p) = true) by (destruct Hopen as [E|E]; now rewrite E).
  assert (Hr : Int32.in_range (status p)).
  { unfold Int32.in_range, Int32.half_modulus. lia. }
  exists (with_status (status p + 4) p), p, true. unfold nest.
  rewrite times_suspend by assumption.
  rewrite wrap_small
    by (unfold Int32.in_range, Int32.half_modulus; lia).
  rewrite times_resume.
  2:{ rewrite status_with_status.
      replace (status p + 4 * Z.of_N k) with (status p + 2 * (2 * Z.of_N k)) by ring.
      now rewrite Z.even_add_mul_2. }
  2:{ rewrite status_with_status. lia. }
  rewrite status_with_status, with_status_twice.
  replace (status p + 4 * Z.of_N k - 4 * Z.of_N (N.pred k)) with (status p + 4) by lia.
  split; [reflexivity|]. split.
  { unfold isSuspended, currentStatus. rewrite status_with_status.
    destruct Hopen as [E|E]; now rewrite E. }
  split.
  { rewrite resume_S.
    destruct p as [a q d sys s]; cbn [status] in Hopen.
    destruct Hopen as [E|E]; subst s; reflexivity. }
  split.
  { unfold isSuspended, currentStatus. destruct Hopen as [E|E]; now rewrite E. }
  intros j. apply times_resume_floor. unfold MailboxStatusSuspendUnit. lia.
Qed.

(** Once [k] suspends have wrapped the word to [-2^31], resumes no longer
    end the suspension. *)
Lemma suspend_nesting_wrapped fuel (k : N) p :
  status p = MailboxStatusOpen ->
  Int32.wrap (4 * Z.of_N k) = -2147483648 ->
  ~ suspend_nesting (S fuel) k p.
Proof.
  intros H0 Hw (p1 & p2 & r & Hn & _ & Hres & Hs2 & _).
  unfold MailboxStatusOpen in H0. unfold nest in Hn.
  rewrite times_suspend in Hn.
  2:{ now rewrite H0. }
  2:{ rewrite H0. unfold Int32.in_range, Int32.half_modulus. lia. }
  rewrite H0, Z.add_0_l, Hw in Hn.
  rewrite times_resume_floor in Hn
    by (rewrite status_with_status; unfold MailboxStatusSuspendUnit; lia).
  injection Hn as <-.
  rewrite resume_S, status_with_status in Hres.
  cbn [Z.eqb Z.geb Z.compare] in Hres. injection Hres as <- _.
  unfold isSuspended, currentStatus in Hs2. rewrite status_with_status in Hs2.
  discriminate Hs2.
Qed.

End StatusWord.

(** C6, at depth 2^29 the suspend counter has left the [int32] range: the
    status word is [-2^31], which [resume] never decrements, so the mailbox
    stays suspended after as many resumes as suspends. *)
Lemma C6_suspend_nesting_overflow :
  ~ suspend_nesting 1 536870912 (fifo.mailbox [] [] MailboxStatusOpen).
Proof.
  apply (suspend_nesting_wrapped 0 536870912 (fifo.mailbox [] [] MailboxStatusOpen)).
  - reflexivity.
  - reflexivity.
Qed.

(** C6 at depth 3 on an idle open mailbox. *)
Lemma C6_suspend_nesting_witness :
  (1 <= 3 < 536870912)%N /\
  shouldProcessMessage (fifo.mailbox [] [] MailboxStatusOpen) = true /\
  suspend_nesting 1 3 (fifo.mailbox [] [] MailboxStatusOpen).
Proof.
  split; [lia|]. split; [reflexivity|].
  apply (C6_suspend_nesting_below_overflow 0 3 (fifo.mailbox [] [] MailboxStatusOpen)).
  - lia.
  - reflexivity.
Defined.

(** C8 on a closed mailbox that still holds a message. *)
Lemma C8_closed_is_terminal_witness :
  isClosed (fifo.mailbox [5%nat] [] MailboxStatusClosed) = true /\
  suspend 1 (fifo.mailbox [5%nat] [] MailboxStatusClosed)
  = Some (fifo.mailbox [5%nat] [] MailboxStatusClosed, false) /\
  resume 1 (fifo.mailbox [5%nat] [] MailboxStatusClosed)
  = Some (fifo.mailbox [5%nat] [] MailboxStatusClosed, false) /\
  setAsIdle 1 (fifo.mailbox [5%nat] [] MailboxStatusClosed)
  = Some (fifo.mailbox [5%nat] [] MailboxStatusClosed, true) /\
  becomeClosed 1 (fifo.mailbox [5%nat] [] MailboxStatusClosed)
  = Some (fifo.mailbox [5%nat] [] MailboxStatusClosed, false).
Proof.
  split; [reflexivity|].
  apply (C8_closed_is_terminal 0 (fifo.mailbox [5%nat] [] MailboxStatusClosed)).
  reflexivity.
Defined.

(** ** The user queue and the run loop *)

Section RunLoop.

Context {ActorRef Envelope SystemMessage Error Q : Type}.
Context {MQ : akka.MessageQueue ActorRef Envelope Error Q}.

Abbreviation Mbox := (@dispatch.Mailbox ActorRef SystemMessage Q).

Context {MI : akka.MessageInvoker Envelope Mbox}.
Context {MD : akka.MessageDispatcher Mbox}.

Implicit Types (p : Mbox) (fuel : nat) (trace : list (Event Envelope)).

(** C2, as implemented: whatever the status, closed included, [Enqueue] hands the
    envelope to the user queue and returns that queue's verdict, so it fails
    exactly when the queue rejects; the dead-letter queue, the system queue
    and the status are left alone. *)
Theorem C2_Enqueue_delegates_to_user_queue
    (receiver : ActorRef) (envelope : Envelope) p :
  exists p',
    Enqueue receiver envelope p
    = (p', snd (akka.Enqueue receiver envelope (messageQueue p))) /\
    messageQueue p' = fst (akka.Enqueue receiver envelope (messageQueue p)) /\
    deadLetterMailbox p' = deadLetterMailbox p /\
    systemMailbox p' = systemMailbox p /\
    status p' = status p /\ actor p' = actor p.
Proof.
  unfold Enqueue.
  destruct (akka.Enqueue receiver envelope (messageQueue p)) as [q err].
  eexists. split; [reflexivity|]. repeat split.
Qed.

Lemma count_app (f : Event Envelope -> bool) trace trace' :
  count f (trace ++ trace') = count f trace + count f trace'.
Proof. unfold count. rewrite filter_app, length_app. lia. Qed.

Lemma max_spec a b : dispatch.max a b = Z.max a b.
Proof. unfold dispatch.max. destruct (Z.gtb_spec a b); lia. Qed.

(** The loop returns within [max 1 left] iterations; it invokes what it
    dequeues, at most [max 1 left] envelopes, and touches neither the
    Scheduled bit nor the dispatcher.  When it invokes fewer, an invocation
    panicked, or [shouldProcessMessage] was false at the head of the loop,
    or the last [Dequeue] found nothing. *)
Lemma processMailbox_bound fuel : forall left p,
  (Z.to_nat (Z.max 1 left) <= fuel)%nat ->
  exists p' trace outcome,
    processMailbox fuel left p = Some (p', trace, outcome) /\
    count is_invoke trace <= Z.max 1 left /\
    count is_dequeued trace = count is_invoke trace /\
    count is_setAsIdle trace = 0 /\ count is_register trace = 0 /\
    (Z.max 1 left <= count is_invoke trace \/ outcome = akka.Panicked \/
     shouldProcessMessage p' = false \/
     exists trace', trace = trace' ++ [EvDequeue None]).
Proof.
  induction fuel as [|fuel IH]; intros left p Hfuel; [lia|].
  cbn [processMailbox].
  destruct (shouldProcessMessage p) eqn:Hsp.
  2:{ exists p, [], akka.Returned.
      change (count is_invoke (@nil (Event Envelope))) with 0.
      repeat split; auto; lia. }
  destruct (Dequeue p) as [[envelope|] p1].
  2:{ exists p1, [EvDequeue None], akka.Returned.
      change (count is_invoke [@EvDequeue Envelope None]) with 0.
      repeat split; try lia.
      right; right; right. now exists []. }
  assert (Hi : count is_invoke [EvDequeue (Some envelope); EvInvoke envelope] = 1)
    by reflexivity.
  assert (Hd : count is_dequeued [EvDequeue (Some envelope); EvInvoke envelope] = 1)
    by reflexivity.
  assert (Hs : count is_setAsIdle [EvDequeue (Some envelope); EvInvoke envelope] = 0)
    by reflexivity.
  assert (Hg : count is_register [EvDequeue (Some envelope); EvInvoke envelope] = 0)
    by reflexivity.
  destruct (akka.Invoke envelope p1) as [p2 [|]].
  2:{ exists p2, [EvDequeue (Some envelope); EvInvoke envelope], akka.Panicked.
      rewrite Hi, Hd, Hs, Hg. repeat split; auto; lia. }
  unfold processAllSystemMessages.
  destruct (Z.gtb_spec left 1) as [Hgt|Hle].
  - destruct (IH (left - 1) p2)
      as (p' & trace & outcome & E & Hinv & Hdeq & Hidle & Hreg & Hstop); [lia|].
    rewrite E. cbn [option_map after].
    exists p', ([EvDequeue (Some envelope); EvInvoke envelope] ++ trace), outcome.
    split; [reflexivity|]. rewrite !count_app, Hi, Hd, Hs, Hg.
    repeat split; try lia.
    destruct Hstop as [H|[H|[H|[trace' H]]]]; [left; lia|auto|auto|].
    right; right; right.
    exists (EvDequeue (Some envelope) :: EvInvoke envelope :: trace'). now rewrite H.
  - exists p2, [EvDequeue (Some envelope); EvInvoke envelope], akka.Returned.
    rewrite Hi, Hd, Hs, Hg. repeat split; try lia.
Qed.

Lemma run_fuel_S t : exists n, run_fuel t = S n.
Proof.
  unfold run_fuel. rewrite max_spec.
  exists (Z.to_nat (Z.max 1 t - 1)). lia.
Qed.

(** [Run] always comes back: a body, then [setAsIdle], then one registration
    request with both hints false, which sees the status [setAsIdle] left. *)
Lemma Run_shape (extra : nat) p :
  exists p1 body outcome,
    Run (run_fuel akka.Throughput + extra) p
    = Some (akka.RegisterForExecution
              (with_status (Z.ldiff (status p1) MailboxStatusScheduled) p1) false false,
            body ++ [EvSetAsIdle;
                     EvRegisterForExecution
                       (Z.ldiff (status p1) MailboxStatusScheduled) false false],
            outcome) /\
    count is_invoke body <= Z.max 1 akka.Throughput /\
    count is_dequeued body = count is_invoke body /\
    count is_setAsIdle body = 0 /\ count is_register body = 0.
Proof.
  destruct (run_fuel_S akka.Throughput) as [n Hn].
  unfold Run. destruct (isClosed p); cbn [negb].
  - rewrite Hn. cbn [Nat.add]. rewrite setAsIdle_S.
    exists p, [], akka.Returned. cbn. repeat split; lia.
  - unfold processAllSystemMessages.
    destruct (processMailbox_bound (run_fuel akka.Throughput + extra)
                (dispatch.max 1 akka.Throughput) p)
      as (p1 & body & outcome & E & Hinv & Hdeq & Hidle & Hreg & _).
    { unfold run_fuel. rewrite !max_spec. lia. }
    rewrite E, Hn. cbn [Nat.add]. rewrite setAsIdle_S.
    exists p1, body, outcome. rewrite max_spec in Hinv.
    repeat split; try assumption. lia.
Qed.

(** C3, as implemented: on a closed mailbox [Run] dequeues nothing and invokes
    nothing; it hands the mailbox, with its queues, its dead-letter queue
    and its status as they were, to the dispatcher in exactly one
    registration request, made after [setAsIdle], and returns. *)
Theorem C3_Run_on_closed_only_reregisters fuel p :
  isClosed p = true ->
  Run (S fuel) p
  = Some (akka.RegisterForExecution p false false,
          [EvSetAsIdle; EvRegisterForExecution MailboxStatusClosed false false],
          akka.Returned).
Proof.
  intros H. unfold Run. rewrite H. cbn [negb]. rewrite setAsIdle_S.
  unfold isClosed, currentStatus in H. apply Z.eqb_eq in H.
  destruct p as [a q d sys s]. cbn [status] in *. subst s. reflexivity.
Qed.

Lemma after_nil (r : @Result ActorRef Envelope SystemMessage Q) : after [] r = r.
Proof. now destruct r as [[q trace] outcome]. Qed.

Lemma after_app trace trace' (r : @Result ActorRef Envelope SystemMessage Q) :
  after trace (after trace' r) = after (trace ++ trace') r.
Proof. destruct r as [[q t] outcome]. cbn [after]. now rewrite app_assoc. Qed.

(** From a loop head that some iterations lead to, the loop goes on as it
    would from there: if one more pass at [q] ends the loop with [r], the
    whole loop ends with the iterations so far followed by [r]. *)
Lemma at_head_then (left : Z) p trace (left' : Z) q :
  at_head left p trace left' q ->
  forall r fuel,
    (forall fuel', processMailbox (S fuel') left' q = Some r) ->
    (Z.to_nat (Z.max 1 left) <= fuel)%nat ->
    processMailbox fuel left p = Some (after trace r).
Proof.
  induction 1 as [left p|left p envelope p1 p2 trace left' q Hsp Hdq Hinv Hgt _ IH];
    intros r fuel Hr Hfuel.
  - destruct fuel as [|fuel]; [lia|]. now rewrite after_nil.
  - destruct fuel as [|fuel]; [lia|].
    cbn [processMailbox]. rewrite Hsp, Hdq, Hinv.
    destruct (Z.gtb_spec left 1); [|lia].
    rewrite (IH r fuel Hr) by lia.
    cbn [option_map]. now rewrite after_app.
Qed.

(** [Run] on a mailbox that is not closed, from what its loop returns. *)
Lemma Run_open fuel p p1 body outcome :
  isClosed p = false ->
  processMailbox (S fuel) (dispatch.max 1 akka.Throughput) p
  = Some (p1, body, outcome) ->
  Run (S fuel) p
  = Some (akka.RegisterForExecution
            (with_status (Z.ldiff (status p1) MailboxStatusScheduled) p1) false false,
          body ++ [EvSetAsIdle;
                   EvRegisterForExecution
                     (Z.ldiff (status p1) MailboxStatusScheduled) false false],
          outcome).
Proof.
  intros Hc E. unfold Run, processAllSystemMessages.
  rewrite Hc. cbn [negb]. rewrite E. now rewrite setAsIdle_S.
Qed.

(** C4: a run comes back having dequeued and invoked at most
    [max 1 Throughput] envelopes, which is 1 when the throughput is not
    positive.  The loop stops at once when [shouldProcessMessage] is false
    at its head, and when [Dequeue] finds nothing; and whenever it has
    invoked fewer than its budget, it met one of the two or a panic.  The
    same holds at every later pass: as soon as an invocation has left
    [shouldProcessMessage] false, or the queue has nothing more, the loop
    ends there with the iterations made so far, and so does the run. *)
Theorem C4_throughput_bound (extra : nat) p :
  (exists p' trace outcome,
     Run (run_fuel akka.Throughput + extra) p = Some (p', trace, outcome) /\
     count is_dequeued trace <= dispatch.max 1 akka.Throughput /\
     count is_invoke trace <= dispatch.max 1 akka.Throughput /\
     count is_invoke trace <= (if akka.Throughput <=? 0 then 1 else akka.Throughput)) /\
  (forall left : Z,
     (shouldProcessMessage p = true \/
      processMailbox (S extra) left p = Some (p, [], akka.Returned)) /\
     (shouldProcessMessage p = false \/
      (exists envelope, fst (Dequeue p) = Some envelope) \/
      processMailbox (S extra) left p
      = Some (snd (Dequeue p), [EvDequeue None], akka.Returned)) /\
     exists p' trace outcome,
       processMailbox (run_fuel left + extra) left p = Some (p', trace, outcome) /\
       count is_invoke trace <= dispatch.max 1 left /\
       (dispatch.max 1 left <= count is_invoke trace \/
        outcome = akka.Panicked \/
        shouldProcessMessage p' = false \/
        exists trace', trace = trace' ++ [EvDequeue None])) /\
  (forall (left : Z) trace (left' : Z) q,
     at_head left p trace left' q ->
     (shouldProcessMessage q = false ->
      processMailbox (run_fuel left + extra) left p
      = Some (q, trace, akka.Returned)) /\
     (shouldProcessMessage q = true ->
      forall q1, Dequeue q = (None, q1) ->
      processMailbox (run_fuel left + extra) left p
      = Some (q1, trace ++ [EvDequeue None], akka.Returned))) /\
  (forall trace (left' : Z) q,
     isClosed p = false ->
     at_head (dispatch.max 1 akka.Throughput) p trace left' q ->
     shouldProcessMessage q = false ->
     Run (run_fuel akka.Throughput + extra) p
     = Some (akka.RegisterForExecution
               (with_status (Z.ldiff (status q) MailboxStatusScheduled) q)
               false false,
             trace ++ [EvSetAsIdle;
                       EvRegisterForExecution
                         (Z.ldiff (status q) MailboxStatusScheduled) false false],
             akka.Returned)).
Proof.
  assert (Hstop : forall (left : Z) trace (left' : Z) q,
            at_head left p trace left' q ->
            shouldProcessMessage q = false ->
            processMailbox (run_fuel left + extra) left p
            = Some (q, trace, akka.Returned)).
  { intros left trace left' q Hat Hq.
    rewrite (at_head_then _ _ _ _ _ Hat (q, [], akka.Returned)).
    - cbn [after]. now rewrite app_nil_r.
    - intros fuel'. cbn [processMailbox]. now rewrite Hq.
    - unfold run_fuel. rewrite max_spec. lia. }
  split; [|split; [|split]].
  - destruct (Run_shape extra p) as (p1 & body & outcome & E & Hinv & Hdeq & _ & _).
    do 3 eexists. split; [exact E|].
    rewrite !count_app, max_spec. cbn.
    repeat split; try lia.
    destruct (Z.leb_spec akka.Throughput 0); lia.
  - intros left. split; [|split].
    + cbn [processMailbox]. destruct (shouldProcessMessage p); auto.
    + cbn [processMailbox]. destruct (shouldProcessMessage p); [|auto].
      right. destruct (Dequeue p) as [[envelope|] p1]; cbn [fst snd]; eauto.
    + destruct (processMailbox_bound (run_fuel left + extra) left p)
        as (p' & trace & outcome & E & Hinv & _ & _ & _ & Hstop').
      { unfold run_fuel. rewrite max_spec. lia. }
      exists p', trace, outcome. rewrite max_spec. auto.
  - intros left trace left' q Hat. split.
    + exact (Hstop left trace left' q Hat).
    + intros Hq q1 Hdq.
      rewrite (at_head_then _ _ _ _ _ Hat (q1, [EvDequeue None], akka.Returned)).
      * reflexivity.
      * intros fuel'. cbn [processMailbox]. now rewrite Hq, Hdq.
      * unfold run_fuel. rewrite max_spec. lia.
  - intros trace left' q Hc Hat Hq.
    pose proof (Hstop _ _ _ _ Hat Hq) as E.
    destruct (run_fuel_S akka.Throughput) as [n Hn].
    unfold run_fuel in E at 1. rewrite max_spec in E.
    replace (Z.max 1 (dispatch.max 1 akka.Throughput)) with (Z.max 1 akka.Throughput)
      in E by (rewrite max_spec; lia).
    rewrite <- max_spec in E. fold (run_fuel akka.Throughput) in E.
    rewrite Hn in *. cbn [Nat.add] in *.
    now apply Run_open.
Qed.

(** C5: whatever the mailbox (closed or not) and whatever the cell does
    (return or panic), a run ends with [setAsIdle] followed by
    [RegisterForExecution]: the trace ends with these two events, neither
    occurs before, and the mailbox the dispatcher receives has the
    Scheduled bit clear. *)
Theorem C5_Run_cleanup_always (extra : nat) p :
  exists p2 body outcome,
    Run (run_fuel akka.Throughput + extra) p
    = Some (akka.RegisterForExecution p2 false false,
            body ++ [EvSetAsIdle; EvRegisterForExecution (status p2) false false],
            outcome) /\
    isScheduled p2 = false /\
    count is_setAsIdle body = 0 /\ count is_register body = 0 /\
    count is_setAsIdle
      (body ++ [EvSetAsIdle; EvRegisterForExecution (status p2) false false]) = 1 /\
    count is_register
      (body ++ [EvSetAsIdle; EvRegisterForExecution (status p2) false false]) = 1.
Proof.
  destruct (Run_shape extra p) as (p1 & body & outcome & E & _ & _ & Hidle & Hreg).
  exists (with_status (Z.ldiff (status p1) MailboxStatusScheduled) p1), body, outcome.
  rewrite status_with_status. split; [exact E|].
  rewrite !count_app, Hidle, Hreg. repeat split.
  unfold isScheduled, currentStatus. rewrite status_with_status.
  rewrite Z.ldiff_land, <- Z.land_assoc. cbn. now rewrite Z.land_0_r.
Qed.

End RunLoop.

(** ** Concrete runs *)

(** C1: an open mailbox holding user message 5 while system message 9 is
    pending.  The run invokes the cell on 5 and on nothing else, and leaves 9
    in the system queue: [processAllSystemMessages] has an empty body. *)
Theorem C1_system_queue_not_drained :
  Run 1 (fifo.mailbox [5%nat] [9%nat] MailboxStatusOpen)
  = Some (fifo.mailbox [] [9%nat] MailboxStatusOpen,
          [EvDequeue (Some 5%nat); EvInvoke 5%nat; EvSetAsIdle;
           EvRegisterForExecution MailboxStatusOpen false false],
          akka.Returned).
Proof. reflexivity. Qed.

(** C2: on a closed mailbox the envelope lands in the user queue and the
    dead-letter queue stays empty. *)
Lemma C2_Enqueue_on_closed_not_redirected :
  ~ enqueue_redirects 7%nat 5%nat (fifo.mailbox [] [] MailboxStatusClosed).
Proof. unfold enqueue_redirects. cbn. discriminate. Qed.

(** C3: a closed mailbox holding a user and a system message keeps both
    through a run, and the run issues a registration request. *)
Lemma C3_Run_on_closed_does_not_clean_up :
  ~ run_cleans_up 1 (fifo.mailbox [5%nat] [9%nat] MailboxStatusClosed).
Proof.
  intros (p' & trace & outcome & E & H & _).
  cbn in E. injection E as <- _ _. discriminate H.
Qed.

(** C3, as implemented, on that mailbox. *)
Lemma C3_Run_on_closed_witness :
  isClosed (fifo.mailbox [5%nat] [9%nat] MailboxStatusClosed) = true /\
  Run 1 (fifo.mailbox [5%nat] [9%nat] MailboxStatusClosed)
  = Some (fifo.mailbox [5%nat] [9%nat] MailboxStatusClosed,
          [EvSetAsIdle; EvRegisterForExecution MailboxStatusClosed false false],
          akka.Returned).
Proof.
  split; [reflexivity|].
  exact (C3_Run_on_closed_only_reregisters 0
           (fifo.mailbox [5%nat] [9%nat] MailboxStatusClosed) eq_refl).
Defined.

(** A panic in the cell does not skip the deferred clean-up. *)
Example Run_with_failing_cell :
  @Run _ _ _ _ _ fifo.Queue fifo.FailingCell fifo.Dispatcher 1
       (fifo.mailbox [5%nat; 6%nat] [] MailboxStatusScheduled)
  = Some (fifo.mailbox [6%nat] [] MailboxStatusOpen,
          [EvDequeue (Some 5%nat); EvInvoke 5%nat; EvSetAsIdle;
           EvRegisterForExecution MailboxStatusOpen false false],
          akka.Panicked).
Proof. reflexivity. Qed.

(** ** More on the status word *)

Section StatusWordEffects.

Context {ActorRef SystemMessage Q : Type}.

Abbreviation Mb := (@dispatch.Mailbox ActorRef SystemMessage Q).

Implicit Types (p : Mb) (s : Z) (fuel : nat).

(** The suspend count is the word without its two low bits. *)
Lemma land_SuspendMask s : Z.land s MailboxStatusSuspendMask = 4 * (s / 4).
Proof.
  unfold MailboxStatusSuspendMask. rewrite <- Z.ldiff_land.
  change 3 with (Z.ones 2). rewrite Z.ldiff_ones_r by lia.
  rewrite Z.shiftr_div_pow2, Z.shiftl_mul_pow2 by lia.
  change (2 ^ 2) with 4. ring.
Qed.

Lemma land_ShouldScheduleMask s : Z.land s MailboxStatusShouldScheduleMask = s mod 4.
Proof.
  unfold MailboxStatusShouldScheduleMask. change 3 with (Z.ones 2).
  now rewrite Z.land_ones by lia.
Qed.

Lemma land_Scheduled_low s :
  Z.land s MailboxStatusScheduled
  = Z.land (Z.land s MailboxStatusShouldScheduleMask) MailboxStatusScheduled.
Proof. now rewrite <- Z.land_assoc. Qed.

Lemma bit0_low s :
  Z.testbit s 0 = Z.testbit (Z.land s MailboxStatusShouldScheduleMask) 0.
Proof. rewrite Z.land_spec. cbn. now rewrite andb_true_r. Qed.

Lemma isSuspended_nonneg p :
  0 <= status p -> isSuspended p = (status p >=? MailboxStatusSuspendUnit).
Proof.
  intros H. unfold isSuspended, currentStatus, MailboxStatusSuspendUnit.
  rewrite land_SuspendMask.
  destruct (Z.geb_spec (status p) 4) as [G|G];
    destruct (Z.eqb_spec (4 * (status p / 4)) 0) as [E|E]; try reflexivity; exfalso.
  - assert (1 <= status p / 4) by (apply Z.div_le_lower_bound; lia). lia.
  - apply E. rewrite Z.div_small; lia.
Qed.

Lemma bit0_clear_not_closed s : Z.testbit s 0 = false -> s <> MailboxStatusClosed.
Proof. intros H E. rewrite E in H. discriminate. Qed.

Lemma mod4_add4 s : (s + 4) mod 4 = s mod 4.
Proof. replace (s + 4) with (s + 1 * 4) by ring. apply Z_mod_plus_full. Qed.

Lemma mod4_sub4 s : (s - 4) mod 4 = s mod 4.
Proof. replace (s - 4) with (s + (-1) * 4) by ring. apply Z_mod_plus_full. Qed.

Lemma div4_add4 s : (s + 4) / 4 = s / 4 + 1.
Proof. replace (s + 4) with (s + 1 * 4) by ring. apply Z.div_add. lia. Qed.

Lemma div4_sub4 s : (s - 4) / 4 = s / 4 - 1.
Proof. replace (s - 4) with (s + (-1) * 4) by ring. rewrite Z.div_add; lia. Qed.

Lemma wrap_mod4 s : Int32.wrap s mod 4 = s mod 4.
Proof.
  unfold Int32.wrap, Int32.modulus, Int32.half_modulus.
  rewrite (Z.mod_eq (s + 2147483648) 4294967296) by discriminate.
  replace (s + 2147483648 - 4294967296 * ((s + 2147483648) / 4294967296) - 2147483648)
    with (s + (- 1073741824 * ((s + 2147483648) / 4294967296)) * 4) by ring.
  apply Z_mod_plus_full.
Qed.

Lemma isScheduled_mod4 p p' :
  status p' mod 4 = status p mod 4 -> isScheduled p' = isScheduled p.
Proof.
  intros H. unfold isScheduled, currentStatus.
  rewrite (land_Scheduled_low (status p')), (land_Scheduled_low (status p)).
  now rewrite !land_ShouldScheduleMask, H.
Qed.

(** X1: on an open mailbox whose suspend count has room for one more,
    [suspend] adds exactly one unit to the count, keeps the Scheduled bit,
    leaves the mailbox open and suspended, and reports [true] exactly when
    the mailbox was not suspended before. *)
Theorem suspend_adds_one_unit fuel p :
  0 <= status p < 2147483644 ->
  Z.testbit (status p) 0 = false ->
  exists p',
    suspend (S fuel) p = Some (p', negb (isSuspended p)) /\
    p' = with_status (status p + MailboxStatusSuspendUnit) p /\
    isSuspended p' = true /\
    isScheduled p' = isScheduled p /\
    isClosed p' = false /\
    Z.land (status p') MailboxStatusSuspendMask
    = Z.land (status p) MailboxStatusSuspendMask + MailboxStatusSuspendUnit.
Proof.
  intros Hr Hb. pose proof (bit0_clear_not_closed _ Hb) as Hc.
  exists (with_status (status p + MailboxStatusSuspendUnit) p).
  rewrite suspend_S. apply Z.eqb_neq in Hc. rewrite Hc.
  unfold MailboxStatusSuspendUnit in *.
  rewrite wrap_small by (unfold Int32.in_range, Int32.half_modulus; lia).
  rewrite (isSuspended_nonneg p) by lia. unfold MailboxStatusSuspendUnit.
  split.
  { do 2 f_equal. destruct (Z.ltb_spec (status p) 4), (Z.geb_spec (status p) 4);
      try reflexivity; lia. }
  split; [reflexivity|]. split.
  { rewrite isSuspended_nonneg; rewrite status_with_status; [|lia].
    unfold MailboxStatusSuspendUnit. destruct (Z.geb_spec (status p + 4) 4); [reflexivity|lia]. }
  split.
  { apply isScheduled_mod4. rewrite status_with_status. apply mod4_add4. }
  split.
  { unfold isClosed, currentStatus, MailboxStatusClosed. rewrite status_with_status.
    apply Z.eqb_neq. lia. }
  rewrite status_with_status, !land_SuspendMask, div4_add4. ring.
Qed.

(** X2: on an open mailbox with a non-negative status word, [resume] takes
    one unit off the suspend count, stopping at zero, keeps the Scheduled
    bit and leaves the mailbox open; it reports [true] exactly when the
    mailbox is no longer suspended afterwards. *)
Theorem resume_takes_one_unit fuel p :
  0 <= status p ->
  Z.testbit (status p) 0 = false ->
  exists p',
    resume (S fuel) p = Some (p', negb (isSuspended p')) /\
    p' = with_status (status p') p /\
    isScheduled p' = isScheduled p /\
    isClosed p' = false /\
    Z.land (status p') MailboxStatusSuspendMask
    = Z.max 0 (Z.land (status p) MailboxStatusSuspendMask - MailboxStatusSuspendUnit).
Proof.
  intros Hr Hb. pose proof (bit0_clear_not_closed _ Hb) as Hc.
  rewrite resume_S. apply Z.eqb_neq in Hc. rewrite Hc.
  unfold MailboxStatusSuspendUnit.
  destruct (Z.geb_spec (status p) 4) as [G|G].
  - exists (with_status (status p - 4) p).
    rewrite isSuspended_nonneg; rewrite status_with_status; [|lia].
    unfold MailboxStatusSuspendUnit. split.
    { do 2 f_equal.
      destruct (Z.ltb_spec (status p - 4) 4), (Z.geb_spec (status p - 4) 4);
        try reflexivity; lia. }
    split; [reflexivity|]. split.
    { apply isScheduled_mod4. rewrite status_with_status. apply mod4_sub4. }
    split.
    { unfold isClosed, currentStatus. rewrite status_with_status.
      apply Z.eqb_neq, bit0_clear_not_closed. now rewrite bit0_sub4. }
    rewrite !land_SuspendMask, div4_sub4.
    assert (1 <= status p / 4) by (apply Z.div_le_lower_bound; lia). lia.
  - exists p. rewrite (isSuspended_nonneg p) by lia. unfold MailboxStatusSuspendUnit.
    split.
    { do 2 f_equal.
      destruct (Z.ltb_spec (status p) 4), (Z.geb_spec (status p) 4);
        try reflexivity; lia. }
    split; [symmetry; apply with_status_same|]. split; [reflexivity|]. split.
    { unfold isClosed, currentStatus. exact Hc. }
    rewrite land_SuspendMask, Z.div_small by lia. reflexivity.
Qed.

(** X3: while the suspend count has room, [resume] right after [suspend]
    gives back the mailbox as it was, closed mailboxes included, and reports
    [true] exactly when the [suspend] did. *)
Theorem resume_undoes_suspend fuel p :
  0 <= status p < 2147483644 ->
  exists p1 r,
    suspend (S fuel) p = Some (p1, r) /\ resume (S fuel) p1 = Some (p, r).
Proof.
  intros Hr. rewrite suspend_S.
  unfold MailboxStatusClosed, MailboxStatusSuspendUnit.
  destruct (Z.eqb_spec (status p) 1) as [E|E].
  - do 2 eexists. split; [reflexivity|].
    rewrite resume_S, status_with_status, with_status_twice.
    unfold MailboxStatusClosed. rewrite Z.eqb_refl.
    rewrite <- E. now rewrite with_status_same.
  - do 2 eexists. split; [reflexivity|].
    rewrite wrap_small by (unfold Int32.in_range, Int32.half_modulus; lia).
    rewrite resume_S, status_with_status, with_status_twice.
    unfold MailboxStatusClosed, MailboxStatusSuspendUnit.
    destruct (Z.eqb_spec (status p + 4) 1); [lia|].
    destruct (Z.geb_spec (status p + 4) 4); [|lia].
    replace (status p + 4 - 4) with (status p) by ring.
    rewrite ?with_status_twice. now rewrite with_status_same.
Qed.

(** X4: a negative status word, which is what 2^29 nested suspends leave,
    is beyond [resume]: the call changes nothing and reports [true], while
    the mailbox stays suspended and processes no user message. *)
Theorem resume_stuck_below_zero fuel p :
  status p < 0 ->
  resume (S fuel) p = Some (p, true) /\
  isSuspended p = true /\ shouldProcessMessage p = false.
Proof.
  intros Hneg. rewrite resume_S.
  unfold MailboxStatusClosed, MailboxStatusSuspendUnit.
  destruct (Z.eqb_spec (status p) 1); [lia|].
  destruct (Z.geb_spec (status p) 4); [lia|].
  destruct (Z.ltb_spec (status p) 4); [|lia].
  split; [reflexivity|].
  assert (Hs : Z.land (status p) MailboxStatusSuspendMask <> 0).
  { rewrite land_SuspendMask.
    assert (status p / 4 < 0) by (apply Z.div_lt_upper_bound; lia). lia. }
  split.
  - unfold isSuspended, currentStatus. apply Z.eqb_neq in Hs. now rewrite Hs.
  - unfold shouldProcessMessage, currentStatus, MailboxStatusShouldNotProcessMask.
    apply Z.eqb_neq. intros E. apply Hs. unfold MailboxStatusSuspendMask.
    change (Z.lnot 3) with (Z.land (Z.lnot 2) (Z.lnot 3)).
    now rewrite Z.land_assoc, E.
Qed.

(** X5: [shouldProcessMessage] is "closed bit clear and not suspended"; the
    Scheduled bit plays no part in it. *)
Theorem shouldProcessMessage_open_unsuspended p :
  shouldProcessMessage p = negb (Z.testbit (status p) 0) && negb (isSuspended p).
Proof.
  unfold shouldProcessMessage, isSuspended, currentStatus.
  unfold MailboxStatusShouldNotProcessMask, MailboxStatusSuspendMask.
  change (Z.lnot 2) with (Z.lor 1 (Z.lnot 3)).
  rewrite Z.land_lor_distr_r, negb_involutive.
  assert (H1 : Z.land (status p) 1 = Z.b2z (Z.testbit (status p) 0)).
  { change 1 with (Z.ones 1) at 1. rewrite Z.land_ones by lia.
    symmetry. apply Z.bit0_mod. }
  rewrite H1. destruct (Z.testbit (status p) 0); cbn [Z.b2z negb andb].
  - apply Z.eqb_neq. intros E. apply Z.lor_eq_0_iff in E. destruct E; discriminate.
  - now rewrite Z.lor_0_l.
Qed.

Lemma ldiff_Scheduled_mod4 s :
  s mod 4 = 0 -> Z.ldiff s MailboxStatusScheduled = s.
Proof.
  intros H. unfold MailboxStatusScheduled. apply Z.bits_inj'. intros n Hn.
  rewrite Z.ldiff_spec, testbit_two.
  destruct (Z.eqb_spec n 1) as [->|_]; [|now rewrite andb_true_r].
  rewrite andb_false_r.
  rewrite (Z.div_mod s 4), H, Z.add_0_r, Z.mul_comm by lia.
  change 4 with (2 ^ 2). symmetry. apply Z.mul_pow2_bits_low. lia.
Qed.

Lemma isScheduled_unscheduled_word p :
  unscheduled_word (status p) -> isScheduled p = false.
Proof.
  unfold unscheduled_word, isScheduled, currentStatus, MailboxStatusClosed.
  intros [E|[E _]].
  - now rewrite E.
  - now rewrite land_Scheduled_low, land_ShouldScheduleMask, E.
Qed.

Lemma transition_unscheduled fuel t p :
  unscheduled_word (status p) ->
  exists p' r, transition (S fuel) t p = Some (p', r) /\
               p' = with_status (status p') p /\
               unscheduled_word (status p').
Proof.
  unfold unscheduled_word, MailboxStatusClosed. intros H.
  destruct t; cbn [transition].
  - rewrite suspend_S. unfold MailboxStatusClosed, MailboxStatusSuspendUnit.
    destruct (Z.eqb_spec (status p) 1) as [E|E]; do 2 eexists;
      (split; [reflexivity|]); (split; [reflexivity|]);
      rewrite status_with_status; [now left|].
    destruct H as [H|[H _]]; [contradiction|]. right. split.
    + now rewrite wrap_mod4, mod4_add4.
    + apply wrap_in_range.
  - rewrite resume_S. unfold MailboxStatusClosed, MailboxStatusSuspendUnit.
    destruct (Z.eqb_spec (status p) 1) as [E|E];
      [|destruct (Z.geb_spec (status p) 4)]; do 2 eexists;
      (split; [reflexivity|]);
      (split; [try reflexivity; symmetry; apply with_status_same|]);
      rewrite ?status_with_status; [now left| |exact H].
    destruct H as [H|[H R]]; [contradiction|]. right. split.
    + now rewrite mod4_sub4.
    + unfold Int32.in_range, Int32.half_modulus in *. lia.
  - rewrite becomeClosed_S. do 2 eexists. repeat split. now left.
  - rewrite setAsIdle_S. do 2 eexists. repeat split.
    rewrite status_with_status. destruct H as [H|[H R]].
    + left. now rewrite H.
    + right. now rewrite ldiff_Scheduled_mod4.
Qed.

(** X6: no transition of the mailbox sets the Scheduled bit.  From the Open
    word, any sequence of [suspend], [resume], [becomeClosed] and
    [setAsIdle] runs to the end, changes nothing but the status, and leaves
    a word within the [int32] range that is Closed or a bare suspend count,
    so [isScheduled] is false. *)
Theorem transitions_never_schedule fuel (ts : list Transition) p :
  exists p',
    transitions (S fuel) ts (with_status MailboxStatusOpen p) = Some p' /\
    p' = with_status (status p') p /\
    isScheduled p' = false /\
    Int32.in_range (status p') /\
    (status p' = MailboxStatusClosed \/ status p' mod 4 = 0).
Proof.
  assert (G : forall q : Mb, unscheduled_word (status q) ->
            exists q', transitions (S fuel) ts q = Some q' /\
                       q' = with_status (status q') q /\
                       unscheduled_word (status q')).
  { induction ts as [|t ts IH]; intros q Hq.
    - exists q. repeat split; [symmetry; apply with_status_same|exact Hq].
    - destruct (transition_unscheduled fuel t q Hq) as (q1 & r & E1 & F1 & H1).
      destruct (IH q1 H1) as (q2 & E2 & F2 & H2).
      exists q2. cbn [transitions]. rewrite E1. repeat split; try assumption.
      rewrite F2, F1. reflexivity. }
  destruct (G (with_status MailboxStatusOpen p)) as (p' & E & F & H).
  { right. rewrite status_with_status. split; [reflexivity|].
    unfold Int32.in_range, Int32.half_modulus, MailboxStatusOpen. lia. }
  exists p'. split; [exact E|]. split; [rewrite F; reflexivity|].
  split; [now apply isScheduled_unscheduled_word|].
  destruct H as [H|[H R]].
  - split; [|now left]. rewrite H.
    unfold Int32.in_range, Int32.half_modulus, MailboxStatusClosed. lia.
  - split; [exact R|now right].
Qed.

End StatusWordEffects.

(** ** More on the run loop *)

Section RunLoopEffects.

Context {ActorRef Envelope SystemMessage Error Q : Type}.
Context {MQ : akka.MessageQueue ActorRef Envelope Error Q}.

Abbreviation Mbx := (@dispatch.Mailbox ActorRef SystemMessage Q).

Context {MI : akka.MessageInvoker Envelope Mbx}.
Context {MD : akka.MessageDispatcher Mbx}.

Implicit Types (p : Mbx) (fuel : nat) (trace : list (Event Envelope)).

(** What a finished run is made of. *)
Lemma Run_inv fuel p p' trace outcome :
  Run fuel p = Some (p', trace, outcome) ->
  exists p1 body,
    (if isClosed p
     then p1 = p /\ body = [] /\ outcome = akka.Returned
     else processMailbox fuel (dispatch.max 1 akka.Throughput) p
          = Some (p1, body, outcome)) /\
    p' = akka.RegisterForExecution
           (with_status (Z.ldiff (status p1) MailboxStatusScheduled) p1) false false /\
    trace = body ++ [EvSetAsIdle;
                     EvRegisterForExecution
                       (Z.ldiff (status p1) MailboxStatusScheduled) false false].
Proof.
  unfold Run, processAllSystemMessages. intros H.
  destruct fuel as [|fuel].
  { destruct (isClosed p); cbn in H; discriminate. }
  destruct (isClosed p); cbn [negb] in H.
  - rewrite setAsIdle_S in H. injection H as <- <- <-.
    exists p, []. repeat split.
  - destruct (processMailbox (S fuel) (dispatch.max 1 akka.Throughput) p)
      as [[[p1 body] out]|]; [|discriminate].
    rewrite setAsIdle_S in H. injection H as <- <- <-.
    exists p1, body. repeat split.
Qed.

(** X7: a mailbox that is closed or suspended is not processed: the run
    dequeues nothing and invokes nothing, it only clears the Scheduled bit
    and asks the dispatcher once to register the mailbox. *)
Theorem Run_skips_when_not_processing fuel p :
  shouldProcessMessage p = false ->
  Run (S fuel) p
  = Some (akka.RegisterForExecution
            (with_status (Z.ldiff (status p) MailboxStatusScheduled) p) false false,
          [EvSetAsIdle;
           EvRegisterForExecution
             (Z.ldiff (status p) MailboxStatusScheduled) false false],
          akka.Returned).
Proof.
  intros H. unfold Run, processAllSystemMessages.
  destruct (isClosed p); cbn [negb processMailbox]; rewrite ?H;
    now rewrite setAsIdle_S.
Qed.

Lemma invoked_app trace trace' :
  invoked (trace ++ trace') = invoked trace ++ invoked trace'.
Proof.
  induction trace as [|[next|next| |s m y] trace IH]; cbn; now rewrite ?IH.
Qed.

Lemma dequeued_app trace trace' :
  dequeued (trace ++ trace') = dequeued trace ++ dequeued trace'.
Proof.
  induction trace as [|[[next|]|next| |s m y] trace IH]; cbn; now rewrite ?IH.
Qed.

(** The loop hands every envelope it dequeues to the cell before it dequeues
    the next; it keeps the actor, the system queue and the dead-letter queue
    when the cell does; and when it ends in a panic, the panicking
    invocation is the last thing it did. *)
Lemma processMailbox_inv fuel : forall left p p' trace outcome,
  processMailbox fuel left p = Some (p', trace, outcome) ->
  invoked trace = dequeued trace /\
  ((forall envelope q,
      systemMailbox (fst (akka.Invoke envelope q)) = systemMailbox q) ->
   systemMailbox p' = systemMailbox p) /\
  ((forall envelope q,
      deadLetterMailbox (fst (akka.Invoke envelope q)) = deadLetterMailbox q) ->
   deadLetterMailbox p' = deadLetterMailbox p) /\
  (outcome = akka.Returned \/
   exists trace' envelope q,
     akka.Invoke envelope q = (p', akka.Panicked) /\
     trace = trace' ++ [EvDequeue (Some envelope); EvInvoke envelope]).
Proof.
  induction fuel as [|fuel IH]; intros left p p' trace outcome H; [discriminate|].
  cbn [processMailbox] in H.
  destruct (shouldProcessMessage p).
  2:{ injection H as <- <- <-. repeat split; auto. }
  unfold Dequeue in H.
  destruct (akka.Dequeue (messageQueue p)) as [[envelope|] q].
  2:{ injection H as <- <- <-. repeat split; auto. }
  destruct (akka.Invoke envelope (with_messageQueue q p)) as [p2 out] eqn:Einv.
  assert (Hsys : (forall envelope q,
                    systemMailbox (fst (akka.Invoke envelope q)) = systemMailbox q) ->
                 systemMailbox p2 = systemMailbox p).
  { intros F. specialize (F envelope (with_messageQueue q p)).
    now rewrite Einv in F. }
  assert (Hdl : (forall envelope q,
                   deadLetterMailbox (fst (akka.Invoke envelope q))
                   = deadLetterMailbox q) ->
                deadLetterMailbox p2 = deadLetterMailbox p).
  { intros F. specialize (F envelope (with_messageQueue q p)).
    now rewrite Einv in F. }
  destruct out.
  2:{ injection H as <- <- <-. repeat split; auto.
      right. exists [], envelope, (with_messageQueue q p). now split. }
  unfold processAllSystemMessages in H.
  destruct (left >? 1).
  - destruct (processMailbox fuel (left - 1) p2) as [[[p3 trace3] out3]|] eqn:E;
      [|discriminate].
    cbn [option_map after] in H. injection H as <- <- <-.
    destruct (IH _ _ _ _ _ E) as (Hpair & Hs & Hd & Hpanic).
    split; [cbn; now rewrite Hpair|].
    split; [intros F; rewrite (Hs F); now apply Hsys|].
    split; [intros F; rewrite (Hd F); now apply Hdl|].
    destruct Hpanic as [->|(trace' & e & q' & Hq & ->)]; [now left|right].
    exists (EvDequeue (Some envelope) :: EvInvoke envelope :: trace'), e, q'.
    now split.
  - injection H as <- <- <-. repeat split; auto.
Qed.

(** X8: a run hands the cell exactly the envelopes it dequeued, in the order
    it dequeued them: none is dropped, repeated or reordered inside [Run]. *)
Theorem Run_invokes_what_it_dequeues (extra : nat) p :
  exists p' trace outcome,
    Run (run_fuel akka.Throughput + extra) p = Some (p', trace, outcome) /\
    invoked trace = dequeued trace.
Proof.
  destruct (Run_shape extra p) as (p1 & body & outcome & E & _).
  do 3 eexists. split; [exact E|].
  destruct (Run_inv _ _ _ _ _ E) as (q & body' & Hbody & _ & ->).
  rewrite invoked_app, dequeued_app. cbn. rewrite !app_nil_r.
  destruct (isClosed p).
  - destruct Hbody as (_ & -> & _). reflexivity.
  - now apply processMailbox_inv in Hbody.
Qed.

(** X9: [Run] itself never takes anything out of the system queue or the
    dead-letter queue: when the cell leaves them alone, the mailbox the
    dispatcher receives has both as they were before the run. *)
Theorem Run_keeps_system_and_dead_letters (extra : nat) p :
  (forall envelope q,
     systemMailbox (fst (akka.Invoke envelope q)) = systemMailbox q) ->
  (forall envelope q,
     deadLetterMailbox (fst (akka.Invoke envelope q)) = deadLetterMailbox q) ->
  exists p2 trace outcome,
    Run (run_fuel akka.Throughput + extra) p
    = Some (akka.RegisterForExecution p2 false false, trace, outcome) /\
    systemMailbox p2 = systemMailbox p /\
    deadLetterMailbox p2 = deadLetterMailbox p.
Proof.
  intros Fs Fd.
  destruct (Run_shape extra p) as (p1 & body & outcome & E & _).
  destruct (Run_inv _ _ _ _ _ E) as (q & body' & Hbody & Hp' & _).
  rewrite Hp' in E.
  do 3 eexists. split; [exact E|].
  cbn [systemMailbox deadLetterMailbox with_status].
  destruct (isClosed p).
  - destruct Hbody as (-> & _ & _). now split.
  - apply processMailbox_inv in Hbody. destruct Hbody as (_ & Hs & Hd & _).
    split; auto.
Qed.

(** X10: a panic of the cell ends the batch.  At whatever pass of the loop
    the cell panics, the run ends there: nothing more is dequeued, whatever
    is left of the throughput; the trace is the iterations made so far, the
    panicking invocation, then the deferred [setAsIdle] and registration;
    the outcome is the panic; and the dispatcher receives the mailbox as
    that invocation left it, less the Scheduled bit.  Conversely a run that
    ends in a panic has this shape. *)
Theorem Run_panic_ends_batch (extra : nat) p :
  (forall trace (left' : Z) q envelope q1 q2,
     isClosed p = false ->
     at_head (dispatch.max 1 akka.Throughput) p trace left' q ->
     shouldProcessMessage q = true ->
     Dequeue q = (Some envelope, q1) ->
     akka.Invoke envelope q1 = (q2, akka.Panicked) ->
     Run (run_fuel akka.Throughput + extra) p
     = Some (akka.RegisterForExecution
               (with_status (Z.ldiff (status q2) MailboxStatusScheduled) q2)
               false false,
             trace ++ [EvDequeue (Some envelope); EvInvoke envelope;
                       EvSetAsIdle;
                       EvRegisterForExecution
                         (Z.ldiff (status q2) MailboxStatusScheduled)
                         false false],
             akka.Panicked)) /\
  (exists p' trace outcome,
     Run (run_fuel akka.Throughput + extra) p = Some (p', trace, outcome) /\
     (outcome = akka.Returned \/
      exists trace' envelope q q',
        akka.Invoke envelope q = (q', akka.Panicked) /\
        p' = akka.RegisterForExecution
               (with_status (Z.ldiff (status q') MailboxStatusScheduled) q')
               false false /\
        trace = trace' ++ [EvDequeue (Some envelope); EvInvoke envelope;
                           EvSetAsIdle;
                           EvRegisterForExecution
                             (Z.ldiff (status q') MailboxStatusScheduled)
                             false false])).
Proof.
  split.
  - intros trace left' q envelope q1 q2 Hc Hat Hq Hdq Hinv.
    destruct (run_fuel_S akka.Throughput) as [n Hn]. rewrite Hn. cbn [Nat.add].
    rewrite (Run_open (n + extra) p q2
               (trace ++ [EvDequeue (Some envelope); EvInvoke envelope])
               akka.Panicked Hc).
    + now rewrite <- app_assoc.
    + rewrite (at_head_then _ _ _ _ _ Hat
                 (q2, [EvDequeue (Some envelope); EvInvoke envelope], akka.Panicked)).
      * reflexivity.
      * intros fuel'. cbn [processMailbox]. now rewrite Hq, Hdq, Hinv.
      * change (S (n + extra)) with (S n + extra)%nat. rewrite <- Hn.
        unfold run_fuel. rewrite !max_spec. lia.
  - destruct (Run_shape extra p) as (p1 & body & outcome & E & _).
    do 3 eexists. split; [exact E|].
    destruct (Run_inv _ _ _ _ _ E) as (q' & body' & Hbody & Hp' & Htrace).
    destruct (isClosed p).
    + left. now destruct Hbody as (_ & _ & ->).
    + apply processMailbox_inv in Hbody.
      destruct Hbody as (_ & _ & _ & [->|(trace' & envelope & q & Hq & ->)]);
        [now left|right].
      exists trace', envelope, q, q'. split; [exact Hq|]. split; [exact Hp'|].
      rewrite Htrace, <- app_assoc. reflexivity.
Qed.

(** X14: when every invocation leaves the mailbox closed or suspended, a
    run invokes the cell at most once, whatever the throughput: the loop
    tests [shouldProcessMessage] again before each further dequeue. *)
Theorem Run_stops_after_suspending_invocation (extra : nat) p :
  (forall envelope q, shouldProcessMessage (fst (akka.Invoke envelope q)) = false) ->
  exists p' trace outcome,
    Run (run_fuel akka.Throughput + extra) p = Some (p', trace, outcome) /\
    count is_invoke trace <= 1 /\ count is_dequeued trace <= 1.
Proof.
  intros Hstop.
  destruct (Run_shape extra p) as (p1 & body & outcome & E & _).
  destruct (Run_inv _ _ _ _ _ E) as (q' & body' & Hbody & _ & Htrace).
  do 3 eexists. split; [exact E|]. rewrite Htrace, !count_app.
  change (count is_invoke [EvSetAsIdle;
            EvRegisterForExecution
              (Z.ldiff (status q') MailboxStatusScheduled) false false]) with 0.
  change (count is_dequeued [EvSetAsIdle;
            EvRegisterForExecution
              (Z.ldiff (status q') MailboxStatusScheduled) false false]) with 0.
  assert (count is_invoke body' <= 1 /\ count is_dequeued body' <= 1) as [? ?];
    [|lia].
  destruct (isClosed p).
  { destruct Hbody as (_ & -> & _). split; apply Z.leb_le; reflexivity. }
  destruct (run_fuel akka.Throughput + extra)%nat as [|fuel]; [discriminate|].
  cbn [processMailbox] in Hbody.
  destruct (shouldProcessMessage p).
  2:{ injection Hbody as _ <- _. split; apply Z.leb_le; reflexivity. }
  destruct (Dequeue p) as [[envelope|] q].
  2:{ injection Hbody as _ <- _. split; apply Z.leb_le; reflexivity. }
  pose proof (Hstop envelope q) as Hq.
  destruct (akka.Invoke envelope q) as [p2 out]. cbn [fst] in Hq.
  destruct out.
  2:{ injection Hbody as _ <- _. split; apply Z.leb_le; reflexivity. }
  unfold processAllSystemMessages in Hbody.
  destruct (dispatch.max 1 akka.Throughput >? 1).
  2:{ injection Hbody as _ <- _. split; apply Z.leb_le; reflexivity. }
  destruct fuel as [|fuel]; [discriminate|].
  cbn [processMailbox] in Hbody. rewrite Hq in Hbody.
  cbn [option_map after] in Hbody. injection Hbody as _ <- _.
  split; apply Z.leb_le; reflexivity.
Qed.

End RunLoopEffects.

(** ** A first-in first-out queue under a passive cell *)

Lemma fifo_processMailbox fuel : forall (left : Z) (user system : list nat) (s : Z),
  (Z.to_nat (Z.max 1 left) <= fuel)%nat ->
  s = MailboxStatusOpen \/ s = MailboxStatusScheduled ->
  exists trace,
    processMailbox fuel left (fifo.mailbox user system s)
    = Some (fifo.mailbox (skipn (Z.to_nat (Z.max 1 left)) user) system s,
            trace, akka.Returned) /\
    invoked trace = firstn (Z.to_nat (Z.max 1 left)) user.
Proof.
  induction fuel as [|fuel IH]; intros left user system s Hfuel Hs; [lia|].
  assert (Hsp : shouldProcessMessage (fifo.mailbox user system s) = true)
    by (destruct Hs; subst s; reflexivity).
  cbn [processMailbox]. rewrite Hsp.
  destruct user as [|envelope user].
  - exists [EvDequeue None].
    rewrite skipn_nil, firstn_nil. split; reflexivity.
  - change (Dequeue (fifo.mailbox (envelope :: user) system s))
      with (Some envelope, fifo.mailbox user system s).
    cbv iota beta.
    change (akka.Invoke envelope (fifo.mailbox user system s))
      with (fifo.mailbox user system s, akka.Returned).
    cbv iota beta. unfold processAllSystemMessages.
    destruct (Z.gtb_spec left 1) as [Hgt|Hle].
    + destruct (IH (left - 1) user system s) as (trace & E & Hinv); [lia|exact Hs|].
      rewrite E. cbn [option_map after].
      replace (Z.to_nat (Z.max 1 left)) with (S (Z.to_nat (Z.max 1 (left - 1))))
        by lia.
      eexists. split; [reflexivity|].
      cbn [app invoked firstn]. now rewrite Hinv.
    + replace (Z.to_nat (Z.max 1 left)) with 1%nat by lia.
      eexists. split; [reflexivity|]. reflexivity.
Qed.

(** X11: with a first-in first-out user queue and a cell that leaves the
    mailbox alone, a run on an open, unsuspended mailbox under throughput
    [t] invokes the first [max 1 t] queued envelopes in queue order (all of
    them if fewer are queued), leaves the others queued in order, and
    leaves the status Open. *)
Theorem Run_fifo_batch (t : Z) (extra : nat) (user system : list nat) (s : Z) :
  s = MailboxStatusOpen \/ s = MailboxStatusScheduled ->
  exists trace,
    Run (MD := fifo.DispatcherOf t) (run_fuel t + extra)
        (fifo.mailbox user system s)
    = Some (fifo.mailbox (skipn (Z.to_nat (dispatch.max 1 t)) user) system
              MailboxStatusOpen,
            trace, akka.Returned) /\
    invoked trace = firstn (Z.to_nat (dispatch.max 1 t)) user /\
    dequeued trace = firstn (Z.to_nat (dispatch.max 1 t)) user.
Proof.
  intros Hs. unfold Run, processAllSystemMessages.
  assert (Hc : isClosed (fifo.mailbox user system s) = false)
    by (destruct Hs; subst s; reflexivity).
  rewrite Hc. cbn [negb].
  change (@akka.Throughput _ (fifo.DispatcherOf t)) with t.
  destruct (fifo_processMailbox (run_fuel t + extra) (dispatch.max 1 t)
              user system s) as (trace & E & Hinv).
  { unfold run_fuel. rewrite !max_spec. lia. }
  { exact Hs. }
  rewrite E. destruct (run_fuel_S t) as [n ->]. cbn [Nat.add].
  rewrite setAsIdle_S.
  replace (Z.max 1 (dispatch.max 1 t)) with (dispatch.max 1 t) in *
    by (rewrite !max_spec; lia).
  eexists. split.
  - destruct Hs; subst s; reflexivity.
  - rewrite invoked_app, dequeued_app. cbn [invoked dequeued].
    rewrite !app_nil_r. split; [exact Hinv|].
    pose proof (processMailbox_inv _ _ _ _ _ _ E) as (Hpair & _).
    now rewrite <- Hpair.
Qed.

(** ** Actor system names *)

Lemma MatchString_NoMatch s : regexp.MatchString regexp.NoMatch s = false.
Proof. induction s as [|c s IH]; [reflexivity|exact IH]. Qed.

Lemma MatchString_Alternate r1 r2 s :
  regexp.MatchString (regexp.Alternate r1 r2) s
  = regexp.MatchString r1 s || regexp.MatchString r2 s.
Proof.
  revert r1 r2. induction s as [|c s IH]; intros r1 r2; [reflexivity|].
  cbn [regexp.MatchString regexp.derive]. apply IH.
Qed.

Lemma MatchString_Concat_NoMatch r s :
  regexp.MatchString (regexp.Concat regexp.NoMatch r) s = false.
Proof. induction s as [|c s IH]; [reflexivity|exact IH]. Qed.

Lemma MatchString_Concat_EmptyMatch r s :
  regexp.MatchString (regexp.Concat regexp.EmptyMatch r) s = regexp.MatchString r s.
Proof.
  destruct s as [|c s]; [reflexivity|].
  cbn [regexp.MatchString regexp.derive regexp.nullable].
  now rewrite MatchString_Alternate, MatchString_Concat_NoMatch.
Qed.

Lemma MatchString_Star_CharClass ranges s :
  regexp.MatchString (regexp.Star (regexp.CharClass ranges)) s
  = forallb (regexp.in_class ranges) s.
Proof.
  induction s as [|c s IH]; [reflexivity|].
  cbn [regexp.MatchString regexp.derive forallb].
  destruct (regexp.in_class ranges c).
  - now rewrite MatchString_Concat_EmptyMatch.
  - apply MatchString_Concat_NoMatch.
Qed.

Lemma in_class_first c :
  regexp.in_class [("a", "z"); ("A", "Z"); ("0", "9")]%char c = actor.is_alnum c.
Proof.
  unfold regexp.in_class, regexp.in_range, actor.is_alnum.
  cbn [existsb fst snd]. rewrite orb_false_r, orb_assoc. reflexivity.
Qed.

Lemma in_class_rest c :
  regexp.in_class
    [("a", "z"); ("A", "Z"); ("0", "9"); ("-", "-"); ("_", "_")]%char c
  = actor.is_name_byte c.
Proof.
  unfold regexp.in_class, regexp.in_range, actor.is_name_byte, actor.is_alnum.
  cbn [existsb fst snd]. rewrite orb_false_r, !orb_assoc.
  change (N_of_ascii "-") with 45%N. change (N_of_ascii "_") with 95%N.
  f_equal; [f_equal|].
  - destruct (N.leb_spec 45 (N_of_ascii c)), (N.leb_spec (N_of_ascii c) 45),
      (N.eqb_spec (N_of_ascii c) 45); try reflexivity; lia.
  - destruct (N.leb_spec 95 (N_of_ascii c)), (N.leb_spec (N_of_ascii c) 95),
      (N.eqb_spec (N_of_ascii c) 95); try reflexivity; lia.
Qed.

Lemma MatchString_namePattern name :
  regexp.MatchString actor.namePattern name = actor.name_ok name.
Proof.
  destruct name as [|c rest]; [reflexivity|].
  unfold actor.namePattern, actor.name_ok.
  cbn [regexp.MatchString regexp.derive regexp.nullable].
  rewrite in_class_first. destruct (actor.is_alnum c); cbn [andb].
  - rewrite MatchString_Concat_EmptyMatch, MatchString_Star_CharClass.
    induction rest as [|x rest IH]; [reflexivity|].
    cbn [forallb]. now rewrite in_class_rest, IH.
  - apply MatchString_Concat_NoMatch.
Qed.

(** X12: [NewActorSystem] accepts a name exactly when it is not empty, starts
    with an ASCII letter or digit and goes on with ASCII letters, digits,
    [-] and [_] only.  Any other name gives [ErrInvalidActorSystemName] and
    no system, before anything is configured; an accepted name gives what
    the rest of the function gives. *)
Theorem NewActorSystem_name_check {System Config Error : Type}
    (ErrInvalidActorSystemName : Error)
    (boot : list ascii -> list Config -> option System * option Error)
    (name : list ascii) (config : list Config) :
  actor.NewActorSystem ErrInvalidActorSystemName boot name config
  = if actor.name_ok name then boot name config
    else (None, Some ErrInvalidActorSystemName).
Proof.
  unfold actor.NewActorSystem. rewrite MatchString_namePattern.
  now destruct (actor.name_ok name).
Qed.

(** ** Type names *)

(** Where the last separator of [s] is. *)
Lemma LastIndex_from_spec sep : forall s i,
  (strings.LastIndex_from i s sep = -1 /\ strings.no_byte sep s = true) \/
  (exists pre suf,
     s = pre ++ sep :: suf /\ strings.no_byte sep suf = true /\
     strings.LastIndex_from i s sep = i + Z.of_nat (List.length pre)) \/
  i < 0.
Proof.
  induction s as [|c s IH]; intros i.
  - left. split; reflexivity.
  - destruct (Z.ltb_spec i 0) as [Hi|Hi]; [right; right; exact Hi|].
    cbn [strings.LastIndex_from].
    destruct (IH (i + 1)) as [[E Hno]|[(pre & suf & -> & Hno & E)|Hneg]]; [| |lia].
    + rewrite E. change (-1 >=? 0) with false. cbv iota.
      destruct (Ascii.eqb_spec c sep) as [->|Hc].
      * right; left. exists [], s. repeat split; [exact Hno|cbn; lia].
      * left. split; [reflexivity|].
        cbn [strings.no_byte forallb]. fold (strings.no_byte sep s).
        rewrite Hno. destruct (Ascii.eqb_spec c sep); [contradiction|reflexivity].
    + rewrite E.
      destruct (Z.geb_spec (i + 1 + Z.of_nat (List.length pre)) 0); [|lia].
      right; left. exists (c :: pre), suf. repeat split; [exact Hno|].
      cbn [List.length]. lia.
Qed.

(** X13: [getTypeName] returns what follows the last dot: the result has no
    dot and is the end of the input, and what it cuts off is empty or ends
    with a dot.  In particular an input without a dot comes back whole and
    an input that ends with a dot gives the empty name. *)
Theorem getTypeName_after_last_dot (s : list ascii) :
  exists prefix,
    s = prefix ++ actor.getTypeName s /\
    strings.no_byte "."%char (actor.getTypeName s) = true /\
    (prefix = [] \/ exists pre, prefix = pre ++ ["."%char]).
Proof.
  unfold actor.getTypeName.
  destruct s as [|c s]; [exists []; repeat split; now left|].
  change (Z.of_nat (List.length (c :: s)) =? 0) with false. cbv iota.
  unfold strings.slice_from, strings.LastIndex.
  destruct (LastIndex_from_spec "."%char (c :: s) 0)
    as [[E Hno]|[(pre & suf & Hs & Hno & E)|Hneg]]; [| |lia].
  - rewrite E. exists []. cbn [Z.add Z.to_nat skipn app].
    repeat split; [exact Hno|now left].
  - rewrite E, Hs.
    replace (Z.to_nat (0 + Z.of_nat (List.length pre) + 1))
      with (List.length (pre ++ ["."%char])) by (rewrite length_app; cbn; lia).
    replace (pre ++ "."%char :: suf) with ((pre ++ ["."%char]) ++ suf)
      by (now rewrite <- app_assoc).
    rewrite skipn_app, skipn_all, Nat.sub_diag. cbn [app skipn].
    exists (pre ++ ["."%char]). repeat split; [exact Hno|].
    right. now exists pre.
Qed.

(** ** Instances of the facts above *)

(** X1 on a scheduled mailbox at suspend level 1. *)
Lemma suspend_adds_one_unit_witness :
  0 <= status (fifo.mailbox [5%nat] [] 6) < 2147483644 /\
  Z.testbit (status (fifo.mailbox [5%nat] [] 6)) 0 = false /\
  exists p',
    suspend 1 (fifo.mailbox [5%nat] [] 6)
    = Some (p', negb (isSuspended (fifo.mailbox [5%nat] [] 6))) /\
    p' = with_status (status (fifo.mailbox [5%nat] [] 6) + MailboxStatusSuspendUnit)
           (fifo.mailbox [5%nat] [] 6) /\
    isSuspended p' = true /\
    isScheduled p' = isScheduled (fifo.mailbox [5%nat] [] 6) /\
    isClosed p' = false /\
    Z.land (status p') MailboxStatusSuspendMask
    = Z.land (status (fifo.mailbox [5%nat] [] 6)) MailboxStatusSuspendMask
      + MailboxStatusSuspendUnit.
Proof.
  assert (H : 0 <= status (fifo.mailbox [5%nat] [] 6) < 2147483644)
    by (change (status (fifo.mailbox [5%nat] [] 6)) with 6; lia).
  split; [exact H|]. split; [reflexivity|].
  exact (suspend_adds_one_unit 0 (fifo.mailbox [5%nat] [] 6) H eq_refl).
Defined.

(** X2 on the same mailbox. *)
Lemma resume_takes_one_unit_witness :
  0 <= status (fifo.mailbox [5%nat] [] 6) /\
  Z.testbit (status (fifo.mailbox [5%nat] [] 6)) 0 = false /\
  exists p',
    resume 1 (fifo.mailbox [5%nat] [] 6) = Some (p', negb (isSuspended p')) /\
    p' = with_status (status p') (fifo.mailbox [5%nat] [] 6) /\
    isScheduled p' = isScheduled (fifo.mailbox [5%nat] [] 6) /\
    isClosed p' = false /\
    Z.land (status p') MailboxStatusSuspendMask
    = Z.max 0 (Z.land (status (fifo.mailbox [5%nat] [] 6)) MailboxStatusSuspendMask
               - MailboxStatusSuspendUnit).
Proof.
  assert (H : 0 <= status (fifo.mailbox [5%nat] [] 6))
    by (change (status (fifo.mailbox [5%nat] [] 6)) with 6; lia).
  split; [exact H|]. split; [reflexivity|].
  exact (resume_takes_one_unit 0 (fifo.mailbox [5%nat] [] 6) H eq_refl).
Defined.

(** X3 on the same mailbox. *)
Lemma resume_undoes_suspend_witness :
  0 <= status (fifo.mailbox [5%nat] [] 6) < 2147483644 /\
  exists p1 r,
    suspend 1 (fifo.mailbox [5%nat] [] 6) = Some (p1, r) /\
    resume 1 p1 = Some (fifo.mailbox [5%nat] [] 6, r).
Proof.
  assert (H : 0 <= status (fifo.mailbox [5%nat] [] 6) < 2147483644)
    by (change (status (fifo.mailbox [5%nat] [] 6)) with 6; lia).
  split; [exact H|].
  exact (resume_undoes_suspend 0 (fifo.mailbox [5%nat] [] 6) H).
Defined.

(** X4 on the word 2^29 suspends leave. *)
Lemma resume_stuck_below_zero_witness :
  status (fifo.mailbox [5%nat] [] (-2147483648)) < 0 /\
  resume 1 (fifo.mailbox [5%nat] [] (-2147483648))
  = Some (fifo.mailbox [5%nat] [] (-2147483648), true) /\
  isSuspended (fifo.mailbox [5%nat] [] (-2147483648)) = true /\
  shouldProcessMessage (fifo.mailbox [5%nat] [] (-2147483648)) = false.
Proof.
  assert (H : status (fifo.mailbox [5%nat] [] (-2147483648)) < 0)
    by (change (status (fifo.mailbox [5%nat] [] (-2147483648))) with (-2147483648); lia).
  split; [exact H|].
  exact (resume_stuck_below_zero 0 (fifo.mailbox [5%nat] [] (-2147483648)) H).
Defined.

(** X7 on a suspended mailbox that holds a message. *)
Lemma Run_skips_when_not_processing_witness :
  shouldProcessMessage (fifo.mailbox [5%nat] [] 6) = false /\
  Run 1 (fifo.mailbox [5%nat] [] 6)
  = Some (fifo.mailbox [5%nat] [] 4,
          [EvSetAsIdle; EvRegisterForExecution 4 false false],
          akka.Returned).
Proof.
  split; [reflexivity|].
  exact (Run_skips_when_not_processing 0 (fifo.mailbox [5%nat] [] 6) eq_refl).
Defined.

(** X9 with the passive cell. *)
Lemma Run_keeps_system_and_dead_letters_witness :
  (forall (envelope : nat) (q : fifo.Mailbox),
     systemMailbox (fst (akka.Invoke envelope q)) = systemMailbox q) /\
  (forall (envelope : nat) (q : fifo.Mailbox),
     deadLetterMailbox (fst (akka.Invoke envelope q)) = deadLetterMailbox q) /\
  exists p2 trace outcome,
    Run (run_fuel akka.Throughput + 0) (fifo.mailbox [5%nat; 6%nat] [9%nat] 0)
    = Some (akka.RegisterForExecution p2 false false, trace, outcome) /\
    systemMailbox p2 = systemMailbox (fifo.mailbox [5%nat; 6%nat] [9%nat] 0) /\
    deadLetterMailbox p2
    = deadLetterMailbox (fifo.mailbox [5%nat; 6%nat] [9%nat] 0).
Proof.
  split; [intros; reflexivity|]. split; [intros; reflexivity|].
  exact (Run_keeps_system_and_dead_letters 0 (fifo.mailbox [5%nat; 6%nat] [9%nat] 0)
           (fun _ _ => eq_refl) (fun _ _ => eq_refl)).
Defined.

(** X11 with throughput 2 and three queued envelopes. *)
Lemma Run_fifo_batch_witness :
  (MailboxStatusOpen = MailboxStatusOpen \/ MailboxStatusOpen = MailboxStatusScheduled) /\
  exists trace,
    Run (MD := fifo.DispatcherOf 2) (run_fuel 2 + 0)
        (fifo.mailbox [5%nat; 6%nat; 7%nat] [] MailboxStatusOpen)
    = Some (fifo.mailbox (skipn (Z.to_nat (dispatch.max 1 2)) [5%nat; 6%nat; 7%nat]) []
              MailboxStatusOpen,
            trace, akka.Returned) /\
    invoked trace = firstn (Z.to_nat (dispatch.max 1 2)) [5%nat; 6%nat; 7%nat] /\
    dequeued trace = firstn (Z.to_nat (dispatch.max 1 2)) [5%nat; 6%nat; 7%nat].
Proof.
  split; [left; reflexivity|].
  exact (Run_fifo_batch 2 0 [5%nat; 6%nat; 7%nat] [] MailboxStatusOpen
           (or_introl eq_refl)).
Defined.

(** X14 with the closing cell and throughput 5. *)
Lemma Run_stops_after_suspending_invocation_witness :
  (forall (envelope : nat) (q : fifo.Mailbox),
     shouldProcessMessage (fst (akka.Invoke (MessageInvoker := fifo.ClosingCell)
                                            envelope q)) = false) /\
  exists p' trace outcome,
    Run (MI := fifo.ClosingCell) (MD := fifo.DispatcherOf 5) (run_fuel 5 + 0)
        (fifo.mailbox [5%nat; 6%nat] [] 0)
    = Some (p', trace, outcome) /\
    count is_invoke trace <= 1 /\ count is_dequeued trace <= 1.
Proof.
  split; [intros; reflexivity|].
  exact (Run_stops_after_suspending_invocation
           (MI := fifo.ClosingCell) (MD := fifo.DispatcherOf 5)
           0 (fifo.mailbox [5%nat; 6%nat] [] 0) (fun _ _ => eq_refl)).
Defined.

(** C4 at the second pass: the first invocation closes the mailbox, so the
    loop ends with one envelope invoked out of a budget of five, and so
    does the run. *)
Lemma C4_throughput_bound_witness :
  at_head (MI := fifo.ClosingCell) 5 (fifo.mailbox [5%nat; 6%nat] [] 0)
    [EvDequeue (Some 5%nat); EvInvoke 5%nat] 4 (fifo.mailbox [6%nat] [] 1) /\
  shouldProcessMessage (fifo.mailbox [6%nat] [] 1) = false /\
  isClosed (fifo.mailbox [5%nat; 6%nat] [] 0) = false /\
  processMailbox (MI := fifo.ClosingCell) (run_fuel 5 + 0) 5
    (fifo.mailbox [5%nat; 6%nat] [] 0)
  = Some (fifo.mailbox [6%nat] [] 1,
          [EvDequeue (Some 5%nat); EvInvoke 5%nat], akka.Returned) /\
  Run (MI := fifo.ClosingCell) (MD := fifo.DispatcherOf 5) (run_fuel 5 + 0)
    (fifo.mailbox [5%nat; 6%nat] [] 0)
  = Some (fifo.mailbox [6%nat] [] 1,
          [EvDequeue (Some 5%nat); EvInvoke 5%nat; EvSetAsIdle;
           EvRegisterForExecution 1 false false],
          akka.Returned).
Proof.
  assert (Hat : at_head (MI := fifo.ClosingCell) 5 (fifo.mailbox [5%nat; 6%nat] [] 0)
                  [EvDequeue (Some 5%nat); EvInvoke 5%nat] 4
                  (fifo.mailbox [6%nat] [] 1)).
  { apply (at_head_next (MI := fifo.ClosingCell) 5 (fifo.mailbox [5%nat; 6%nat] [] 0)
             5%nat (fifo.mailbox [6%nat] [] 0) (fifo.mailbox [6%nat] [] 1)
             [] 4 (fifo.mailbox [6%nat] [] 1));
      try reflexivity.
    apply at_head_entry. }
  split; [exact Hat|]. split; [reflexivity|]. split; [reflexivity|].
  destruct (C4_throughput_bound (MI := fifo.ClosingCell) (MD := fifo.DispatcherOf 5)
              0 (fifo.mailbox [5%nat; 6%nat] [] 0)) as (_ & _ & Hloop & Hrun).
  split.
  - exact (proj1 (Hloop 5 _ 4 _ Hat) eq_refl).
  - exact (Hrun _ 4 _ eq_refl Hat eq_refl).
Defined.

(** X10 at the second pass: the cell panics on envelope 6, so envelope 7
    stays queued although the throughput is 3. *)
Lemma Run_panic_ends_batch_witness :
  isClosed (fifo.mailbox [5%nat; 6%nat; 7%nat] [] 2) = false /\
  at_head (MI := fifo.PanicOn 6) 3 (fifo.mailbox [5%nat; 6%nat; 7%nat] [] 2)
    [EvDequeue (Some 5%nat); EvInvoke 5%nat] 2
    (fifo.mailbox [6%nat; 7%nat] [] 2) /\
  shouldProcessMessage (fifo.mailbox [6%nat; 7%nat] [] 2) = true /\
  Dequeue (fifo.mailbox [6%nat; 7%nat] [] 2)
  = (Some 6%nat, fifo.mailbox [7%nat] [] 2) /\
  akka.Invoke (MessageInvoker := fifo.PanicOn 6) 6%nat (fifo.mailbox [7%nat] [] 2)
  = (fifo.mailbox [7%nat] [] 2, akka.Panicked) /\
  Run (MI := fifo.PanicOn 6) (MD := fifo.DispatcherOf 3) (run_fuel 3 + 0)
    (fifo.mailbox [5%nat; 6%nat; 7%nat] [] 2)
  = Some (fifo.mailbox [7%nat] [] 0,
          [EvDequeue (Some 5%nat); EvInvoke 5%nat;
           EvDequeue (Some 6%nat); EvInvoke 6%nat;
           EvSetAsIdle; EvRegisterForExecution 0 false false],
          akka.Panicked).
Proof.
  assert (Hat : at_head (MI := fifo.PanicOn 6) 3
                  (fifo.mailbox [5%nat; 6%nat; 7%nat] [] 2)
                  [EvDequeue (Some 5%nat); EvInvoke 5%nat] 2
                  (fifo.mailbox [6%nat; 7%nat] [] 2)).
  { apply (at_head_next (MI := fifo.PanicOn 6) 3
             (fifo.mailbox [5%nat; 6%nat; 7%nat] [] 2)
             5%nat (fifo.mailbox [6%nat; 7%nat] [] 2)
             (fifo.mailbox [6%nat; 7%nat] [] 2)
             [] 2 (fifo.mailbox [6%nat; 7%nat] [] 2));
      try reflexivity.
    apply at_head_entry. }
  split; [reflexivity|]. split; [exact Hat|]. split; [reflexivity|].
  split; [reflexivity|]. split; [reflexivity|].
  exact (proj1 (Run_panic_ends_batch (MI := fifo.PanicOn 6)
                  (MD := fifo.DispatcherOf 3) 0
                  (fifo.mailbox [5%nat; 6%nat; 7%nat] [] 2))
           _ 2 _ 6%nat _ _ eq_refl Hat eq_refl eq_refl eq_refl).
Defined.
